(** * A shallow embedding of the CHIP-8 interpreter of chipy8 ([src/chip8.rs])

    The machine state is the [Chip8] struct; fixed-size arrays are lists
    of [Z] whose indexing fails (a Rust panic) out of range, and u8/u16
    arithmetic wraps, as the release build of the crate does.  The
    drawille [canvas] and the [rom] field only mirror data for display and
    are left out.  Every Rust panic (an index out of bounds, [todo!]) is an
    [Err] of the result monad. *)

From Stdlib Require Import ZArith Lia Bool.
From Stdlib Require Ascii String.
From stdpp Require Import base list.

Open Scope Z_scope.

(** ** Faults and the result monad *)

(** What a panicking [step] reports: the [_] arm of the decoder prints the
    four nibbles and calls [todo!]; an array index out of range panics. *)
Inductive Fault : Type :=
| Unimplemented (n1 n2 n3 n4 : Z)
| IndexOutOfBounds.

Inductive Result (A : Type) : Type :=
| Ok (a : A)
| Err (f : Fault).
Arguments Ok {A} a.
Arguments Err {A} f.

Definition bind {A B : Type} (m : Result A) (k : A -> Result B) : Result B :=
  match m with
  | Ok a => k a
  | Err f => Err f
  end.
Arguments bind {A B} !m k /.

Notation "'let*' x ':=' m 'in' k" := (bind m (fun x => k))
  (at level 200, x name, m at level 100, k at level 200).

(** ** Machine words *)

Definition wrap8 (z : Z) : Z := z mod 256.
Definition wrap16 (z : Z) : Z := z mod 65536.

(** ** Fixed-size arrays *)

(** [a[k]] *)
Definition get (l : list Z) (k : Z) : Result Z :=
  match l !! Z.to_nat k with
  | Some v => Ok v
  | None => Err IndexOutOfBounds
  end.

(** [a[k] = v] *)
Definition set (l : list Z) (k : Z) (v : Z) : Result (list Z) :=
  if (Z.to_nat k <? length l)%nat then Ok (<[Z.to_nat k := v]> l)
  else Err IndexOutOfBounds.

(** [a[start..start + data.len()].copy_from_slice(data)] *)
Definition copy_from_slice (l : list Z) (start : nat) (data : list Z)
  : Result (list Z) :=
  if (start + length data <=? length l)%nat
  then Ok (take start l ++ data ++ drop (start + length data) l)
  else Err IndexOutOfBounds.

(** ** Constants *)

Definition PROGRAM_START : Z := 0x200.
Definition MEMORY_SIZE : nat := 4096.
Definition WIDTH_BYTE : nat := 8.
Definition HEIGHT_BYTE : nat := 32.

Definition CHARACTERS : list Z := [
  0xF0; 0x90; 0x90; 0x90; 0xF0;
  0x20; 0x60; 0x20; 0x20; 0x70;
  0xF0; 0x10; 0xF0; 0x80; 0xF0;
  0xF0; 0x10; 0xF0; 0x10; 0xF0;
  0x90; 0x90; 0xF0; 0x10; 0x10;
  0xF0; 0x80; 0xF0; 0x10; 0xF0;
  0xF0; 0x80; 0xF0; 0x90; 0xF0;
  0xF0; 0x10; 0x20; 0x40; 0x40;
  0xF0; 0x90; 0xF0; 0x90; 0xF0;
  0xF0; 0x90; 0xF0; 0x10; 0xF0;
  0xF0; 0x90; 0xF0; 0x90; 0x90;
  0xE0; 0x90; 0xE0; 0x90; 0xE0;
  0xF0; 0x80; 0x80; 0x80; 0xF0;
  0xE0; 0x90; 0x90; 0x90; 0xE0;
  0xF0; 0x80; 0xF0; 0x80; 0xF0;
  0xF0; 0x80; 0xF0; 0x80; 0x80].

(** ** Machine state *)

Record Chip8 : Type := mkChip8 {
  memory : list Z;           (* [u8; 4096] *)
  registers : list Z;        (* [u8; 16] *)
  i : Z;                     (* u16 *)
  input : Z;                 (* u8 *)
  delay : Z;                 (* u8 *)
  sound : Z;                 (* u8 *)
  program_counter : Z;       (* u16 *)
  stack : list Z;            (* [u16; 16] *)
  stack_pointer : Z;         (* u8 *)
  display : list Z           (* [u8; 256] *)
}.

Definition with_memory (s : Chip8) (m : list Z) : Chip8 :=
  mkChip8 m (registers s) (i s) (input s) (delay s) (sound s)
    (program_counter s) (stack s) (stack_pointer s) (display s).
Definition with_registers (s : Chip8) (r : list Z) : Chip8 :=
  mkChip8 (memory s) r (i s) (input s) (delay s) (sound s)
    (program_counter s) (stack s) (stack_pointer s) (display s).
Definition with_i (s : Chip8) (v : Z) : Chip8 :=
  mkChip8 (memory s) (registers s) v (input s) (delay s) (sound s)
    (program_counter s) (stack s) (stack_pointer s) (display s).
Definition with_delay (s : Chip8) (v : Z) : Chip8 :=
  mkChip8 (memory s) (registers s) (i s) (input s) v (sound s)
    (program_counter s) (stack s) (stack_pointer s) (display s).
Definition with_sound (s : Chip8) (v : Z) : Chip8 :=
  mkChip8 (memory s) (registers s) (i s) (input s) (delay s) v
    (program_counter s) (stack s) (stack_pointer s) (display s).
Definition with_pc (s : Chip8) (v : Z) : Chip8 :=
  mkChip8 (memory s) (registers s) (i s) (input s) (delay s) (sound s)
    v (stack s) (stack_pointer s) (display s).
Definition with_stack (s : Chip8) (st : list Z) : Chip8 :=
  mkChip8 (memory s) (registers s) (i s) (input s) (delay s) (sound s)
    (program_counter s) st (stack_pointer s) (display s).
Definition with_sp (s : Chip8) (v : Z) : Chip8 :=
  mkChip8 (memory s) (registers s) (i s) (input s) (delay s) (sound s)
    (program_counter s) (stack s) v (display s).
Definition with_display (s : Chip8) (d : list Z) : Chip8 :=
  mkChip8 (memory s) (registers s) (i s) (input s) (delay s) (sound s)
    (program_counter s) (stack s) (stack_pointer s) d.

(** [self.registers[x as usize]] and its assignment *)
Definition reg (s : Chip8) (x : Z) : Result Z := get (registers s) x.
Definition set_reg (s : Chip8) (x v : Z) : Result Chip8 :=
  let* r := set (registers s) x v in Ok (with_registers s r).
Definition set_mem (s : Chip8) (a v : Z) : Result Chip8 :=
  let* m := set (memory s) a v in Ok (with_memory s m).

(** ** [Chip8::new] *)

Definition new (rom : list Z) : Result Chip8 :=
  let memory0 := repeat 0 MEMORY_SIZE in
  let* memory1 := copy_from_slice memory0 (Z.to_nat PROGRAM_START) rom in
  let* memory2 := copy_from_slice memory1 0 CHARACTERS in
  Ok {| memory := memory2;
        registers := repeat 0 16;
        i := 0;
        input := 0;
        delay := 0;
        sound := 0;
        program_counter := PROGRAM_START;
        stack := repeat 0 16;
        stack_pointer := 0;
        display := repeat 0 (WIDTH_BYTE * HEIGHT_BYTE) |}.

(** ** Decoding helpers *)

(** [((a1 as u16) << 8) | (((a2 << 4) | a3) as u16)], the shift on u8 *)
Definition assemble_addr (a1 a2 a3 : Z) : Z :=
  Z.lor (Z.shiftl a1 8) (Z.lor (wrap8 (Z.shiftl a2 4)) a3).

(** [nn] of an instruction: [n1 << 4 | n2] on u8 *)
Definition imm (n1 n2 : Z) : Z := Z.lor (wrap8 (Z.shiftl n1 4)) n2.

(** [Chip8::set_addr]: [program_counter = assemble_addr(..) - 2] on u16 *)
Definition set_addr (s : Chip8) (a1 a2 a3 : Z) : Chip8 :=
  with_pc s (wrap16 (assemble_addr a1 a2 a3 - 2)).

(** [self.program_counter += 2] *)
Definition skip (s : Chip8) : Chip8 :=
  with_pc s (wrap16 (program_counter s + 2)).

(** The fetch phase of [step]: two bytes at [pc] and [pc + 1], split in
    four nibbles. *)
Definition fetch (s : Chip8) : Result (Z * Z * Z * Z) :=
  let* byte_1 := get (memory s) (program_counter s) in
  let n1 := Z.shiftr (Z.land byte_1 0xF0) 4 in
  let n2 := Z.land byte_1 0x0F in
  let* byte_2 := get (memory s) (wrap16 (program_counter s + 1)) in
  let n3 := Z.shiftr (Z.land byte_2 0xF0) 4 in
  let n4 := Z.land byte_2 0x0F in
  Ok (n1, n2, n3, n4).

(** ** Loops of the execute phase *)

(** The body of [Dxyn], rows [k .. k + rows - 1]; the flag is [changed]. *)
Fixpoint draw_loop (x y : Z) (k : nat) (rows : nat) (s : Chip8) (changed : bool)
  : Result (Chip8 * bool) :=
  match rows with
  | O => Ok (s, changed)
  | S rows' =>
      let* px := reg s x in
      let* py := reg s y in
      let idx := wrap8 (px / 8 + wrap8 (wrap8 (py + Z.of_nat k) * 8)) in
      let* current_screen := get (display s) idx in
      let* current_sprite := get (memory s) (i s + Z.of_nat k) in
      let fin := Z.lxor current_screen current_sprite in
      let changed' :=
        changed || negb (Z.land current_screen (Z.lxor fin 0xFF) =? 0) in
      let* d := set (display s) idx fin in
      draw_loop x y (S k) rows' (with_display s d) changed'
  end.

(** [for i in 0..=x { memory[I + i] = registers[i] }], from [i = k] *)
Fixpoint store_loop (k : nat) (count : nat) (s : Chip8) : Result Chip8 :=
  match count with
  | O => Ok s
  | S count' =>
      let* v := reg s (Z.of_nat k) in
      let* s' := set_mem s (i s + Z.of_nat k) v in
      store_loop (S k) count' s'
  end.

(** [for i in 0..=x { registers[i] = memory[I + i] }], from [i = k] *)
Fixpoint load_loop (k : nat) (count : nat) (s : Chip8) : Result Chip8 :=
  match count with
  | O => Ok s
  | S count' =>
      let* v := get (memory s) (i s + Z.of_nat k) in
      let* s' := set_reg s (Z.of_nat k) v in
      load_loop (S k) count' s'
  end.

(** ** The execute phase: the [match (n1, n2, n3, n4)] of [Chip8::step]

    Arms are tried in the source order; those sharing a first nibble are
    contiguous in the source, so dispatching on [n1] first keeps the order.
    [rnd] is the byte drawn by [rand::random::<u8>()] for [Cxnn]. *)
Definition execute (rnd : Z) (s : Chip8) (n1 n2 n3 n4 : Z) : Result Chip8 :=
  let unknown := Err (Unimplemented n1 n2 n3 n4) in
  if n1 =? 0x0 then
    if (n2 =? 0) && (n3 =? 0xE) && (n4 =? 0x0) then
      (* CLS *)
      Ok (with_display s (map (fun _ => 0) (display s)))
    else if (n2 =? 0) && (n3 =? 0xE) && (n4 =? 0xE) then
      (* RET *)
      let* pc := get (stack s) (stack_pointer s) in
      Ok (with_sp (with_pc s pc) (wrap8 (stack_pointer s - 1)))
    else unknown
  else if n1 =? 0x1 then Ok (set_addr s n2 n3 n4)
  else if n1 =? 0x2 then
    let sp := wrap8 (stack_pointer s + 1) in
    let* st := set (stack s) sp (program_counter s) in
    Ok (set_addr (with_stack (with_sp s sp) st) n2 n3 n4)
  else if n1 =? 0x3 then
    let* vx := reg s n2 in
    Ok (if vx =? imm n3 n4 then skip s else s)
  else if n1 =? 0x4 then
    let* vx := reg s n2 in
    Ok (if negb (vx =? imm n3 n4) then skip s else s)
  else if n1 =? 0x5 then
    let* vx := reg s n2 in
    let* vy := reg s n3 in
    Ok (if vx =? vy then skip s else s)
  else if n1 =? 0x6 then set_reg s n2 (imm n3 n4)
  else if n1 =? 0x7 then
    let* vx := reg s n2 in
    set_reg s n2 (wrap8 (vx + imm n3 n4))
  else if n1 =? 0x8 then
    if n4 =? 0 then
      let* vy := reg s n3 in
      let* vx := reg s n2 in
      set_reg s n2 (wrap8 (vx + vy))
    else if n4 =? 1 then
      let* vy := reg s n3 in
      let* vx := reg s n2 in
      set_reg s n2 (Z.lor vx vy)
    else if n4 =? 2 then
      let* vy := reg s n3 in
      let* vx := reg s n2 in
      set_reg s n2 (Z.land vx vy)
    else if n4 =? 3 then
      let* vy := reg s n3 in
      let* vx := reg s n2 in
      set_reg s n2 (Z.lxor vx vy)
    else if n4 =? 4 then
      let* vx := reg s n2 in
      let* vy := reg s n3 in
      let* s1 := set_reg s n2 (wrap8 (vx + vy)) in
      set_reg s1 15 (if 256 <=? vx + vy then 1 else 0)
    else if n4 =? 5 then
      let* vx := reg s n2 in
      let* vy := reg s n3 in
      let* s1 := set_reg s n2 (wrap8 (vx - vy)) in
      set_reg s1 15 (if vx <? vy then 0 else 1)
    else if n4 =? 6 then
      let* vx := reg s n2 in
      let* s1 := set_reg s 15 (Z.lor vx 1) in
      let* vx' := reg s1 n2 in
      set_reg s1 n2 (Z.shiftr vx' 1)
    else if n4 =? 7 then
      let* vy := reg s n3 in
      let* vx := reg s n2 in
      let* s1 := set_reg s n2 (wrap8 (vy - vx)) in
      set_reg s1 15 (if vy <? vx then 0 else 1)
    else if n4 =? 0xE then
      let* vx := reg s n2 in
      let* s1 := set_reg s 15 (Z.lor vx 0x8) in
      let* vx' := reg s1 n2 in
      set_reg s1 n2 (wrap8 (Z.shiftl vx' 1))
    else unknown
  else if n1 =? 0x9 then
    if n4 =? 0 then
      let* vx := reg s n2 in
      let* vy := reg s n3 in
      Ok (if negb (vx =? vy) then skip s else s)
    else unknown
  else if n1 =? 0xA then Ok (with_i s (assemble_addr n2 n3 n4))
  else if n1 =? 0xB then
    let* v0 := reg s 0 in
    Ok (with_pc s (wrap16 (v0 + assemble_addr n2 n3 n4)))
  else if n1 =? 0xC then set_reg s n2 (Z.land rnd (imm n3 n4))
  else if n1 =? 0xD then
    let* r := draw_loop n2 n3 0 (Z.to_nat n4) s false in
    let '(s1, changed) := r in
    set_reg s1 15 (if changed then 1 else 0)
  else if n1 =? 0xE then
    if (n3 =? 9) && (n4 =? 0xE) then
      let* vx := reg s n2 in
      Ok (if input s =? vx then skip s else s)
    else if (n3 =? 0xA) && (n4 =? 1) then
      let* vx := reg s n2 in
      Ok (if negb (input s =? vx) then skip s else s)
    else unknown
  else if n1 =? 0xF then
    if (n3 =? 0) && (n4 =? 7) then set_reg s n2 (delay s)
    else if (n3 =? 0) && (n4 =? 0xA) then set_reg s n2 (input s)
    else if (n3 =? 1) && (n4 =? 5) then
      let* vx := reg s n2 in Ok (with_delay s vx)
    else if (n3 =? 1) && (n4 =? 8) then
      let* vx := reg s n2 in Ok (with_sound s vx)
    else if (n3 =? 1) && (n4 =? 0xE) then
      let* vx := reg s n2 in Ok (with_i s (wrap16 (i s + vx)))
    else if (n3 =? 2) && (n4 =? 9) then
      (* [self.i = x as u16 * 5] *)
      Ok (with_i s (wrap16 (n2 * 5)))
    else if (n3 =? 3) && (n4 =? 3) then
      let* val := reg s n2 in
      let* s1 := set_mem s (i s) (val / 100) in
      let* s2 := set_mem s1 (i s1 + 1) ((val mod 100) / 10) in
      set_mem s2 (i s2 + 2) (val mod 10)
    else if (n3 =? 5) && (n4 =? 5) then store_loop 0 (Z.to_nat n2 + 1) s
    else if (n3 =? 6) && (n4 =? 5) then load_loop 0 (Z.to_nat n2 + 1) s
    else unknown
  else unknown.

(** The end of [step]: [program_counter += 2] and the timer decrements. *)
Definition finish (s : Chip8) : Chip8 :=
  let s1 := with_pc s (wrap16 (program_counter s + 2)) in
  let s2 := if 0 <? delay s1 then with_delay s1 (delay s1 - 1) else s1 in
  if 0 <? sound s2 then with_sound s2 (sound s2 - 1) else s2.

(** [Chip8::step] *)
Definition step (rnd : Z) (s : Chip8) : Result Chip8 :=
  let* nib := fetch s in
  let '(n1, n2, n3, n4) := nib in
  let* s1 := execute rnd s n1 n2 n3 n4 in
  Ok (finish s1).

(** A run of steps, one random byte per step. *)
Fixpoint run (rnds : list Z) (s : Chip8) : Result Chip8 :=
  match rnds with
  | [] => Ok s
  | r :: rs => let* s' := step r s in run rs s'
  end.

(** ** Well-formed states: the array sizes and word widths of the struct *)

Definition is_byte (z : Z) : bool := (0 <=? z) && (z <? 256).
Definition is_word (z : Z) : bool := (0 <=? z) && (z <? 65536).

Definition wf (s : Chip8) : bool :=
  (length (memory s) =? MEMORY_SIZE)%nat &&
  (length (registers s) =? 16)%nat &&
  (length (stack s) =? 16)%nat &&
  (length (display s) =? WIDTH_BYTE * HEIGHT_BYTE)%nat &&
  forallb is_byte (memory s) && forallb is_byte (registers s) &&
  forallb is_word (stack s) && forallb is_byte (display s) &&
  is_word (i s) && is_byte (input s) && is_byte (delay s) &&
  is_byte (sound s) && is_word (program_counter s) &&
  is_byte (stack_pointer s).

(** ** Statement-side definitions *)

(** Facts over all nibbles are decided by enumeration. *)
Definition nibbles : list Z := map Z.of_nat (seq 0 16).

(** The value of register [Vx], as statements read it. *)
Definition V (s : Chip8) (x : Z) : Z := default 0 (registers s !! Z.to_nat x).

(** The skip conditions of the spec's table: [3xnn] Vx == nn, [4xnn]
    Vx != nn, [5xy0] Vx == Vy, [9xy0] Vx != Vy. *)
Definition skip_holds (s : Chip8) (op x y k : Z) : bool :=
  if op =? 3 then V s x =? 16 * y + k
  else if op =? 4 then negb (V s x =? 16 * y + k)
  else if op =? 5 then V s x =? V s y
  else negb (V s x =? V s y).

(** A ROM with two instructions: [6103] (V1 := 3), then [F129]. *)
Definition fx29_rom : list Z := [0x61; 0x03; 0xF1; 0x29].

Definition is_call (s : Chip8) : Prop := exists a1 a2 a3, fetch s = Ok (2, a1, a2, a3).
Definition is_ret (s : Chip8) : Prop := fetch s = Ok (0, 0, 0xE, 0xE).

(** The program of the LIFO example: calls at 0x200, 0x210, 0x220, 0x230
    into the next block, a return at each call site + 2 and at 0x240. *)
Definition lifo_rom : list Z :=
  [0x22; 0x10] ++ repeat 0 14 ++
  [0x22; 0x20; 0x00; 0xEE] ++ repeat 0 12 ++
  [0x22; 0x30; 0x00; 0xEE] ++ repeat 0 12 ++
  [0x22; 0x40; 0x00; 0xEE] ++ repeat 0 12 ++
  [0x00; 0xEE].

Definition state_after (rom : list Z) (k : nat) : Chip8 :=
  match bind (new rom) (run (repeat 0 k)) with
  | Ok s => s
  | Err _ => mkChip8 [] [] 0 0 0 0 0 [] 0 []
  end.

Definition call_rom : list Z := [0x22; 0x04; 0x00; 0x00; 0x00; 0xEE].

(** The implemented opcode patterns of [step], as a table; [None] is a
    wildcard nibble. *)
Definition opcode_table : list (option Z * option Z * option Z * option Z) := [
  (Some 0, Some 0, Some 0xE, Some 0); (Some 0, Some 0, Some 0xE, Some 0xE);
  (Some 1, None, None, None); (Some 2, None, None, None);
  (Some 3, None, None, None); (Some 4, None, None, None);
  (Some 5, None, None, None); (Some 6, None, None, None);
  (Some 7, None, None, None);
  (Some 8, None, None, Some 0); (Some 8, None, None, Some 1);
  (Some 8, None, None, Some 2); (Some 8, None, None, Some 3);
  (Some 8, None, None, Some 4); (Some 8, None, None, Some 5);
  (Some 8, None, None, Some 6); (Some 8, None, None, Some 7);
  (Some 8, None, None, Some 0xE); (Some 9, None, None, Some 0);
  (Some 0xA, None, None, None); (Some 0xB, None, None, None);
  (Some 0xC, None, None, None); (Some 0xD, None, None, None);
  (Some 0xE, None, Some 9, Some 0xE); (Some 0xE, None, Some 0xA, Some 1);
  (Some 0xF, None, Some 0, Some 7); (Some 0xF, None, Some 0, Some 0xA);
  (Some 0xF, None, Some 1, Some 5); (Some 0xF, None, Some 1, Some 8);
  (Some 0xF, None, Some 1, Some 0xE); (Some 0xF, None, Some 2, Some 9);
  (Some 0xF, None, Some 3, Some 3); (Some 0xF, None, Some 5, Some 5);
  (Some 0xF, None, Some 6, Some 5)].

Definition nib_matches (p : option Z) (n : Z) : bool :=
  match p with None => true | Some v => v =? n end.

Definition implemented (n1 n2 n3 n4 : Z) : bool :=
  existsb (fun '(p1, p2, p3, p4) =>
    nib_matches p1 n1 && nib_matches p2 n2 && nib_matches p3 n3 && nib_matches p4 n4)
    opcode_table.

(** A failure [f] identifies the program counter [pc] when no state at
    another program counter fails with [f]. *)
Definition identifies_pc (f : Fault) (pc : Z) : Prop :=
  forall rnd s, program_counter s <> pc -> step rnd s <> Err f.

(** C2 as the spec states it: an unknown instruction makes [step] fail
    with the unimplemented-instruction fault, which names the nibbles and
    identifies the program counter. *)
Definition unknown_opcode_claim : Prop :=
  forall rnd s n1 n2 n3 n4,
    fetch s = Ok (n1, n2, n3, n4) -> implemented n1 n2 n3 n4 = false ->
    exists f : Fault, step rnd s = Err f /\ f = Unimplemented n1 n2 n3 n4 /\
      identifies_pc f (program_counter s).

(** Row [k] of a [Dxyn] draw at [(px, py)] uses the display byte
    [(px / 8 + (py + k) * 8) as usize], all in [u8]. *)
Definition row_index (px py : Z) (k : nat) : Z :=
  wrap8 (px / 8 + wrap8 (wrap8 (py + Z.of_nat k) * 8)).

Definition byte_at (l : list Z) (a : nat) : Z := default 0 (l !! a).

(** The collision flag of row [j], as the draw loop computes it from the
    display [d] and the sprite at [base] in memory [m]. *)
Definition row_clears (d m : list Z) (base : nat) (px py : Z) (j : nat) : bool :=
  let c := byte_at d (Z.to_nat (row_index px py j)) in
  let v := byte_at m (base + j) in
  negb (Z.land c (Z.lxor (Z.lxor c v) 0xFF) =? 0).

(** The C7 claim as stated: the second draw always sets [VF] to 1. *)
Definition draw_twice_claim : Prop :=
  forall rnd rnd' s1 s2 x y n,
    wf s1 = true -> Forall (fun z => z = 0) (display s1) -> i s1 + n <= 4096 ->
    fetch s1 = Ok (0xD, x, y, n) -> step rnd s1 = Ok s2 ->
    fetch s2 = Ok (0xD, x, y, n) -> V s2 x = V s1 x -> V s2 y = V s1 y ->
    exists s3, step rnd' s2 = Ok s3 /\ Forall (fun z => z = 0) (display s3) /\
      V s3 15 = 1.

(** [D001] twice with [I = 0]: the glyph byte [0xF0] of the digit 0. *)
Definition draw_rom : list Z := [0xD0; 0x01; 0xD0; 0x01].

(** [A300] sets [I] to an all-zero region, then [D001] twice. *)
Definition blank_draw_rom : list Z := [0xA3; 0x00; 0xD0; 0x01; 0xD0; 0x01].

(** The fields the timers can be loaded from hold no negative value. *)
Definition nonneg (s : Chip8) : Prop :=
  Forall (fun z => 0 <= z) (registers s) /\ Forall (fun z => 0 <= z) (memory s) /\
  0 <= delay s /\ 0 <= sound s /\ 0 <= input s.

(** [6003] (V0 := 3), then [F015] (delay := V0). *)
Definition timer_rom : list Z := [0x60; 0x03; 0xF0; 0x15].

(** The fields an instruction on registers leaves alone, and the program
    counter advanced past the instruction. *)
Definition alu_frame (s s' : Chip8) : Prop :=
  memory s' = memory s /\ i s' = i s /\ stack s' = stack s /\
  stack_pointer s' = stack_pointer s /\ display s' = display s /\
  input s' = input s /\ program_counter s' = wrap16 (program_counter s + 2).

(** What [8xy0] .. [8xy3] store in [Vx]: [+=] on [u8], [|=], [&=], [^=]. *)
Definition alu8 (op a b : Z) : Z :=
  if op =? 0 then wrap8 (a + b)
  else if op =? 1 then Z.lor a b
  else if op =? 2 then Z.land a b
  else Z.lxor a b.

(** [Chip8::set_memory] *)
Definition set_memory (s : Chip8) (start_location : Z) (data : list Z) : Result Chip8 :=
  let* m := copy_from_slice (memory s) (Z.to_nat start_location) data in
  Ok (with_memory s m).

Module Frontend.
Import Ascii String.

Definition WIDTH_PIX : nat := 64.

(** The binary digits of [n > 0], most significant first, prepended to [acc]. *)
Fixpoint bin_digits (fuel : nat) (n : Z) (acc : list ascii) : list ascii :=
  match fuel with
  | O => acc
  | S f =>
      let acc' := (if Z.odd n then "1" else "0")%char :: acc in
      if n <? 2 then acc' else bin_digits f (n / 2) acc'
  end.

(** [format!("{:08b}", r)] for a [u8]: binary without leading zeros, left
    padded with '0' to 8 characters. *)
Definition format_08b (r : Z) : list ascii :=
  let digits := bin_digits 8 r [] in
  repeat "0"%char (8 - List.length digits) ++ digits.

Definition pixel_string (display : list Z) : list ascii :=
  List.concat (List.map format_08b display).

(** [for_each] over the enumerated characters: the painted points, in order;
    [None] for the panic on a character other than '0' and '1'. *)
Fixpoint paint_chars (k : nat) (cs : list ascii) : option (list (nat * nat)) :=
  match cs with
  | [] => Some []
  | c :: cs' =>
      if ascii_dec c "1" then
        match paint_chars (S k) cs' with
        | Some pts => Some ((k mod WIDTH_PIX, k / WIDTH_PIX)%nat :: pts)
        | None => None
        end
      else if ascii_dec c "0" then paint_chars (S k) cs'
      else None
  end.

(** [<Chip8 as Shape>::draw] *)
Definition draw (s : Chip8) : option (list (nat * nat)) :=
  paint_chars 0 (pixel_string (display s)).

(** Character [j] of the 8-bit rendering of [r]: bit [7 - j]. *)
Definition bit_char (r : Z) (j : nat) : Ascii.ascii :=
  if Z.testbit r (Z.of_nat (7 - j)) then "1"%char else "0"%char.






End Frontend.

(** Where row [k] of a sprite drawn at [(px, py)] lands in the display
    array: byte column [px / 8] of pixel row [(py + k) mod 32]. *)
Definition sprite_row_byte (px py : Z) (k : nat) : Z :=
  (px / 8 + 8 * ((py + Z.of_nat k) mod 32)) mod 256.

(** ** Generic lemmas *)

Lemma bind_Ok_inv {A B : Type} (m : Result A) (k : A -> Result B) (b : B) :
  bind m k = Ok b -> exists a, m = Ok a /\ k a = Ok b.
Proof. destruct m as [a|f]; simpl; [eauto | discriminate]. Qed.

Lemma get_Ok (l : list Z) k v : get l k = Ok v <-> l !! Z.to_nat k = Some v.
Proof. unfold get. destruct (l !! Z.to_nat k); split; congruence. Qed.

Lemma get_lt (l : list Z) k :
  (Z.to_nat k < length l)%nat -> exists v, get l k = Ok v.
Proof.
  intros H. apply lookup_lt_is_Some_2 in H as [v Hv].
  exists v. unfold get. rewrite Hv. reflexivity.
Qed.

Lemma get_length (l : list Z) k v : get l k = Ok v -> (Z.to_nat k < length l)%nat.
Proof. intros H%get_Ok. eapply lookup_lt_Some; eauto. Qed.

Lemma set_Ok (l : list Z) k v :
  (Z.to_nat k < length l)%nat -> set l k v = Ok (<[Z.to_nat k := v]> l).
Proof. intros H. unfold set. apply Nat.ltb_lt in H. rewrite H. reflexivity. Qed.

Lemma set_Ok_inv (l : list Z) k v l' :
  set l k v = Ok l' -> (Z.to_nat k < length l)%nat /\ l' = <[Z.to_nat k := v]> l.
Proof.
  unfold set. destruct (Nat.ltb_spec (Z.to_nat k) (length l)); [|discriminate].
  intros [= <-]. auto.
Qed.

Lemma nibble_lo b : 0 <= Z.land b 0x0F < 16.
Proof.
  change 0x0F with (Z.ones 4). rewrite Z.land_ones by lia.
  apply Z.mod_pos_bound. lia.
Qed.

Lemma nibble_hi b : 0 <= Z.shiftr (Z.land b 0xF0) 4 < 16.
Proof.
  rewrite Z.shiftr_land. change (Z.shiftr 0xF0 4) with (Z.ones 4).
  rewrite Z.land_ones by lia. apply Z.mod_pos_bound. lia.
Qed.

Lemma fetch_Ok s n1 n2 n3 n4 :
  fetch s = Ok (n1, n2, n3, n4) ->
  (Z.to_nat (program_counter s) < length (memory s))%nat /\
  (Z.to_nat (wrap16 (program_counter s + 1)) < length (memory s))%nat /\
  0 <= n1 < 16 /\ 0 <= n2 < 16 /\ 0 <= n3 < 16 /\ 0 <= n4 < 16.
Proof.
  unfold fetch. intros H.
  apply bind_Ok_inv in H as (b1 & H1 & H). apply bind_Ok_inv in H as (b2 & H2 & H).
  injection H as <- <- <- <-.
  apply get_length in H1, H2.
  pose proof (nibble_lo b1). pose proof (nibble_lo b2).
  pose proof (nibble_hi b1). pose proof (nibble_hi b2).
  repeat split; assumption || lia.
Qed.

Lemma step_fetch rnd s n1 n2 n3 n4 :
  fetch s = Ok (n1, n2, n3, n4) ->
  step rnd s = bind (execute rnd s n1 n2 n3 n4) (fun t => Ok (finish t)).
Proof. intros H. unfold step. rewrite H. reflexivity. Qed.

Lemma finish_fields t :
  memory (finish t) = memory t /\ registers (finish t) = registers t /\
  i (finish t) = i t /\ input (finish t) = input t /\
  stack (finish t) = stack t /\ stack_pointer (finish t) = stack_pointer t /\
  display (finish t) = display t /\
  program_counter (finish t) = wrap16 (program_counter t + 2) /\
  delay (finish t) = (if 0 <? delay t then delay t - 1 else delay t) /\
  sound (finish t) = (if 0 <? sound t then sound t - 1 else sound t).
Proof.
  unfold finish, with_pc, with_delay, with_sound.
  destruct t as [m r a inp d so pc st sp dsp]; cbn [delay sound].
  destruct (0 <? d); simpl; destruct (0 <? so); simpl; repeat split.
Qed.

Lemma forallb_Forall {A : Type} (f : A -> bool) (l : list A) :
  forallb f l = true -> Forall (fun a => f a = true) l.
Proof.
  induction l as [|a l IH]; simpl; [constructor|].
  rewrite andb_true_iff. intros [Ha Hl]. constructor; auto.
Qed.

Lemma is_byte_spec z : is_byte z = true <-> 0 <= z < 256.
Proof. unfold is_byte. rewrite andb_true_iff, Z.leb_le, Z.ltb_lt. tauto. Qed.

Lemma is_word_spec z : is_word z = true <-> 0 <= z < 65536.
Proof. unfold is_word. rewrite andb_true_iff, Z.leb_le, Z.ltb_lt. tauto. Qed.

Lemma wf_spec s :
  wf s = true ->
  length (memory s) = 4096%nat /\ length (registers s) = 16%nat /\
  length (stack s) = 16%nat /\ length (display s) = 256%nat /\
  Forall (fun z => is_byte z = true) (memory s) /\
  Forall (fun z => is_byte z = true) (registers s) /\
  Forall (fun z => is_word z = true) (stack s) /\
  Forall (fun z => is_byte z = true) (display s) /\
  0 <= i s < 65536 /\ 0 <= input s < 256 /\ 0 <= delay s < 256 /\
  0 <= sound s < 256 /\ 0 <= program_counter s < 65536 /\
  0 <= stack_pointer s < 256.
Proof.
  unfold wf. intros H.
  repeat rewrite andb_true_iff in H.
  destruct H as [[[[[[[[[[[[[H1 H2] H3] H4] H5] H6] H7] H8] H9] H10] H11] H12] H13] H14].
  apply Nat.eqb_eq in H1, H2, H3, H4.
  unfold MEMORY_SIZE, WIDTH_BYTE, HEIGHT_BYTE in *. simpl in H4.
  apply forallb_Forall in H5, H6, H7, H8.
  apply is_word_spec in H9, H13. apply is_byte_spec in H10, H11, H12, H14.
  repeat split; tauto.
Qed.

Lemma nibble_cases (P : Z -> bool) :
  forallb P nibbles = true -> forall a, 0 <= a < 16 -> P a = true.
Proof.
  intros H a Ha. apply forallb_forall with (x := a) in H; [exact H|].
  unfold nibbles. apply in_map_iff. exists (Z.to_nat a). split; [lia|].
  apply in_seq. lia.
Qed.

Lemma imm_nibbles a b : 0 <= a < 16 -> 0 <= b < 16 -> imm a b = 16 * a + b.
Proof.
  intros Ha Hb. apply Z.eqb_eq.
  pose proof (nibble_cases (fun a => forallb (fun b => imm a b =? 16 * a + b) nibbles)
           ltac:(vm_compute; reflexivity) a Ha) as H.
  exact (nibble_cases _ H b Hb).
Qed.

Lemma assemble_addr_nibbles a1 a2 a3 :
  0 <= a1 < 16 -> 0 <= a2 < 16 -> 0 <= a3 < 16 ->
  assemble_addr a1 a2 a3 = 256 * a1 + 16 * a2 + a3.
Proof.
  intros H1 H2 H3. apply Z.eqb_eq.
  pose proof (nibble_cases (fun a1 => forallb (fun a2 => forallb (fun a3 =>
      assemble_addr a1 a2 a3 =? 256 * a1 + 16 * a2 + a3) nibbles) nibbles)
      ltac:(vm_compute; reflexivity) a1 H1) as H.
  pose proof (nibble_cases _ H a2 H2) as H'.
  exact (nibble_cases _ H' a3 H3).
Qed.

Lemma reg_V s x : (Z.to_nat x < length (registers s))%nat -> reg s x = Ok (V s x).
Proof.
  intros H. apply lookup_lt_is_Some_2 in H as [v Hv].
  unfold reg, get, V. rewrite Hv. reflexivity.
Qed.

Lemma set_reg_Ok s x v :
  (Z.to_nat x < length (registers s))%nat ->
  set_reg s x v = Ok (with_registers s (<[Z.to_nat x := v]> (registers s))).
Proof. intros H. unfold set_reg. rewrite set_Ok by exact H. reflexivity. Qed.

Ltac wf_facts Hwf :=
  let Hm := fresh "Hmem" in let Hr := fresh "Hreg" in let Hst := fresh "Hstk" in
  let Hd := fresh "Hdsp" in let Fm := fresh "Fmem" in let Fr := fresh "Freg" in
  let Fs := fresh "Fstk" in let Fd := fresh "Fdsp" in let Hi := fresh "Hi" in
  let Hin := fresh "Hin" in let Hde := fresh "Hdel" in let Hso := fresh "Hsnd" in
  let Hpc := fresh "Hpc" in let Hsp := fresh "Hsp" in
  pose proof (wf_spec _ Hwf)
    as (Hm & Hr & Hst & Hd & Fm & Fr & Fs & Fd & Hi & Hin & Hde & Hso & Hpc & Hsp).

Ltac wrap_small :=
  unfold wrap16, wrap8;
  repeat match goal with
         | |- context [?a mod ?m] => rewrite (Z.mod_small a m) by lia
         end.

(** [Fx29] as the code has it: [I] becomes [x * 5] for the nibble [x]. *)
Lemma step_Fx29 rnd s x :
  fetch s = Ok (0xF, x, 2, 9) ->
  exists s', step rnd s = Ok s' /\ i s' = x * 5 /\
    program_counter s' = wrap16 (program_counter s + 2).
Proof.
  intros Hf. pose proof (fetch_Ok _ _ _ _ _ Hf) as (_ & _ & _ & Hx & _).
  rewrite (step_fetch rnd _ _ _ _ _ Hf). unfold execute. simpl.
  eexists. split; [reflexivity|].
  pose proof (finish_fields (with_i s (wrap16 (x * 5)))) as (_ & _ & -> & _ & _ & _ & _ & -> & _).
  simpl. split; [wrap_small; lia | reflexivity].
Qed.

Theorem skip_family_step rnd s op x y k :
  wf s = true -> fetch s = Ok (op, x, y, k) ->
  (op = 3 \/ op = 4 \/ (op = 5 /\ k = 0) \/ (op = 9 /\ k = 0)) ->
  exists s', step rnd s = Ok s' /\
    program_counter s' =
      program_counter s + (if skip_holds s op x y k then 4 else 2) /\
    registers s' = registers s /\ memory s' = memory s /\
    stack s' = stack s /\ stack_pointer s' = stack_pointer s /\
    display s' = display s /\ i s' = i s.
Proof.
  intros Hwf Hf Hop. wf_facts Hwf.
  pose proof (fetch_Ok _ _ _ _ _ Hf) as (Hpc0 & _ & Hn1 & Hx & Hy & Hk).
  rewrite (step_fetch rnd _ _ _ _ _ Hf).
  assert (Hpc4 : program_counter s < 4096) by lia.
  destruct Hop as [->|[->|[[-> ->]|[-> ->]]]]; unfold execute; simpl;
    rewrite ?(reg_V s x) by lia; rewrite ?(reg_V s y) by lia; simpl;
    rewrite ?imm_nibbles by lia; unfold skip_holds; simpl;
    eexists; (split; [reflexivity|]);
    match goal with |- context [if ?c then _ else _] => destruct c end;
    pose proof (finish_fields (skip s)) as (Q1 & Q2 & Q3 & Q4 & Q5 & Q6 & Q7 & Q8 & _);
    pose proof (finish_fields s) as (R1 & R2 & R3 & R4 & R5 & R6 & R7 & R8 & _);
    rewrite ?Q1, ?Q2, ?Q3, ?Q5, ?Q6, ?Q7, ?Q8, ?R1, ?R2, ?R3, ?R5, ?R6, ?R7, ?R8;
    unfold skip; simpl; wrap_small; repeat split; try reflexivity; lia.
Qed.

Lemma Forall_forallb {A : Type} (f : A -> bool) (l : list A) :
  Forall (fun a => f a = true) l -> forallb f l = true.
Proof. induction 1; simpl; [reflexivity|]. rewrite andb_true_iff. auto. Qed.

Lemma wf_intro s :
  length (memory s) = 4096%nat -> length (registers s) = 16%nat ->
  length (stack s) = 16%nat -> length (display s) = 256%nat ->
  Forall (fun z => is_byte z = true) (memory s) ->
  Forall (fun z => is_byte z = true) (registers s) ->
  Forall (fun z => is_word z = true) (stack s) ->
  Forall (fun z => is_byte z = true) (display s) ->
  0 <= i s < 65536 -> 0 <= input s < 256 -> 0 <= delay s < 256 ->
  0 <= sound s < 256 -> 0 <= program_counter s < 65536 ->
  0 <= stack_pointer s < 256 -> wf s = true.
Proof.
  intros H1 H2 H3 H4 H5 H6 H7 H8 H9 H10 H11 H12 H13 H14.
  unfold wf, MEMORY_SIZE, WIDTH_BYTE, HEIGHT_BYTE.
  rewrite H1, H2, H3, H4, !Forall_forallb by assumption.
  apply is_word_spec in H9, H13. apply is_byte_spec in H10, H11, H12, H14.
  rewrite H9, H10, H11, H12, H13, H14. reflexivity.
Qed.

Lemma finish_wf t : wf t = true -> wf (finish t) = true.
Proof.
  intros Hwf. wf_facts Hwf.
  pose proof (finish_fields t) as (Q1 & Q2 & Q3 & Q4 & Q5 & Q6 & Q7 & Q8 & Q9 & Q10).
  apply wf_intro; rewrite ?Q1, ?Q2, ?Q3, ?Q4, ?Q5, ?Q6, ?Q7, ?Q8, ?Q9, ?Q10; auto.
  - destruct (Z.ltb_spec 0 (delay t)); lia.
  - destruct (Z.ltb_spec 0 (sound t)); lia.
  - unfold wrap16. apply Z.mod_pos_bound. lia.
Qed.

Lemma step_deterministic rnd s s1 s2 :
  step rnd s = Ok s1 -> step rnd s = Ok s2 -> s1 = s2.
Proof. intros H1 H2. rewrite H1 in H2. injection H2 as H2. exact H2. Qed.

Lemma wrap16_addr_roundtrip a : 0 <= a < 65536 -> wrap16 (wrap16 (a - 2) + 2) = a.
Proof.
  intros Ha. unfold wrap16. rewrite Z.add_mod_idemp_l by lia.
  replace (a - 2 + 2) with a by lia. apply Z.mod_small. lia.
Qed.

(** [2nnn]: push the program counter, jump to [nnn]. *)
Lemma call_step rnd s a1 a2 a3 :
  wf s = true -> fetch s = Ok (2, a1, a2, a3) -> stack_pointer s < 15 ->
  exists s', step rnd s = Ok s' /\ wf s' = true /\
    stack_pointer s' = stack_pointer s + 1 /\
    stack s' = <[Z.to_nat (stack_pointer s + 1) := program_counter s]> (stack s) /\
    program_counter s' = 256 * a1 + 16 * a2 + a3 /\ memory s' = memory s.
Proof.
  intros Hwf Hf Hsp15. wf_facts Hwf.
  pose proof (fetch_Ok _ _ _ _ _ Hf) as (Hpc0 & _ & _ & H1 & H2 & H3).
  rewrite (step_fetch rnd _ _ _ _ _ Hf). unfold execute. simpl.
  assert (Hsp1 : wrap8 (stack_pointer s + 1) = stack_pointer s + 1) by (wrap_small; lia).
  rewrite Hsp1, set_Ok by lia. simpl.
  set (t := set_addr _ a1 a2 a3).
  exists (finish t). split; [reflexivity|].
  pose proof (finish_fields t) as (Q1 & Q2 & Q3 & Q4 & Q5 & Q6 & Q7 & Q8 & _).
  rewrite Q1, Q5, Q6, Q8. subst t. unfold set_addr. simpl.
  rewrite assemble_addr_nibbles, wrap16_addr_roundtrip by lia.
  repeat split; try reflexivity; try lia.
  apply finish_wf. unfold set_addr, with_pc, with_stack, with_sp.
  apply wf_intro; simpl; auto; try lia.
  - rewrite length_insert. assumption.
  - apply Forall_insert; [assumption|]. apply is_word_spec. lia.
  - unfold wrap16. apply Z.mod_pos_bound. lia.
Qed.

(** [00EE]: pop the return address. *)
Lemma ret_step rnd s v :
  wf s = true -> fetch s = Ok (0, 0, 0xE, 0xE) ->
  stack s !! Z.to_nat (stack_pointer s) = Some v ->
  exists s', step rnd s = Ok s' /\ wf s' = true /\
    stack_pointer s' = wrap8 (stack_pointer s - 1) /\
    program_counter s' = wrap16 (v + 2) /\
    stack s' = stack s /\ memory s' = memory s.
Proof.
  intros Hwf Hf Hv. wf_facts Hwf.
  rewrite (step_fetch rnd _ _ _ _ _ Hf). unfold execute. simpl.
  unfold get at 1. rewrite Hv. simpl.
  set (t := with_sp (with_pc s v) _).
  exists (finish t). split; [reflexivity|].
  pose proof (finish_fields t) as (Q1 & Q2 & Q3 & Q4 & Q5 & Q6 & Q7 & Q8 & _).
  rewrite Q1, Q5, Q6, Q8. subst t. simpl.
  assert (Hvw : 0 <= v < 65536).
  { apply is_word_spec. exact (Forall_lookup_1 _ _ _ _ Fstk Hv). }
  repeat split; try reflexivity.
  apply finish_wf. unfold with_pc, with_sp.
  apply wf_intro; simpl; auto; try lia.
  unfold wrap8. apply Z.mod_pos_bound. lia.
Qed.

Lemma fetch_bytes s b1 b2 :
  memory s !! Z.to_nat (program_counter s) = Some b1 ->
  memory s !! Z.to_nat (wrap16 (program_counter s + 1)) = Some b2 ->
  fetch s = Ok (Z.shiftr (Z.land b1 0xF0) 4, Z.land b1 0x0F,
                Z.shiftr (Z.land b2 0xF0) 4, Z.land b2 0x0F).
Proof. intros H1 H2. unfold fetch, get. rewrite H1. simpl. rewrite H2. reflexivity. Qed.

Lemma fetch_pc_bound s n1 n2 n3 n4 :
  wf s = true -> fetch s = Ok (n1, n2, n3, n4) -> 0 <= program_counter s < 4096.
Proof.
  intros Hwf Hf. wf_facts Hwf.
  pose proof (fetch_Ok _ _ _ _ _ Hf) as (Hpc0 & _). lia.
Qed.

Lemma call_step_inv rnd s s' :
  wf s = true -> is_call s -> stack_pointer s < 15 -> step rnd s = Ok s' ->
  wf s' = true /\ stack_pointer s' = stack_pointer s + 1 /\
  stack s' = <[Z.to_nat (stack_pointer s + 1) := program_counter s]> (stack s) /\
  0 <= program_counter s < 4096.
Proof.
  intros Hwf (a1 & a2 & a3 & Hf) Hsp Hs.
  pose proof (fetch_pc_bound _ _ _ _ _ Hwf Hf).
  destruct (call_step rnd _ _ _ _ Hwf Hf Hsp) as (s'' & Hs' & Hw & Hsp' & Hst & _).
  rewrite (step_deterministic _ _ _ _ Hs Hs'). auto.
Qed.

Lemma ret_step_inv rnd s s' v :
  wf s = true -> is_ret s -> stack s !! Z.to_nat (stack_pointer s) = Some v ->
  step rnd s = Ok s' ->
  wf s' = true /\ stack_pointer s' = wrap8 (stack_pointer s - 1) /\
  program_counter s' = wrap16 (v + 2) /\ stack s' = stack s.
Proof.
  intros Hwf Hf Hv Hs.
  destruct (ret_step rnd _ _ Hwf Hf Hv) as (s'' & Hs' & Hw & Hsp' & Hpc' & Hst & _).
  rewrite (step_deterministic _ _ _ _ Hs Hs'). auto.
Qed.

(** ** Claims *)

(** C4: a call [2nnn] whose target [nnn] holds [00EE], then that return,
    bring the program counter to [call_site + 2] and the stack pointer back
    (up by one after the call, down by one after the return); four calls
    followed by four returns restore the pre-call program counters in
    reverse order. *)
Theorem call_return_roundtrip :
  (forall rnd1 rnd2 s a1 a2 a3,
     wf s = true -> fetch s = Ok (2, a1, a2, a3) -> stack_pointer s < 15 ->
     memory s !! Z.to_nat (256 * a1 + 16 * a2 + a3) = Some 0x00 ->
     memory s !! Z.to_nat (256 * a1 + 16 * a2 + a3 + 1) = Some 0xEE ->
     exists s1 s2, step rnd1 s = Ok s1 /\ step rnd2 s1 = Ok s2 /\
       stack_pointer s1 = stack_pointer s + 1 /\
       program_counter s1 = 256 * a1 + 16 * a2 + a3 /\
       program_counter s2 = program_counter s + 2 /\
       stack_pointer s2 = stack_pointer s) /\
  (forall (rnd : nat -> Z) s0 s1 s2 s3 s4 s5 s6 s7 s8,
     wf s0 = true -> stack_pointer s0 < 12 ->
     is_call s0 -> is_call s1 -> is_call s2 -> is_call s3 ->
     is_ret s4 -> is_ret s5 -> is_ret s6 -> is_ret s7 ->
     step (rnd 0%nat) s0 = Ok s1 -> step (rnd 1%nat) s1 = Ok s2 ->
     step (rnd 2%nat) s2 = Ok s3 -> step (rnd 3%nat) s3 = Ok s4 ->
     step (rnd 4%nat) s4 = Ok s5 -> step (rnd 5%nat) s5 = Ok s6 ->
     step (rnd 6%nat) s6 = Ok s7 -> step (rnd 7%nat) s7 = Ok s8 ->
     stack_pointer s4 = stack_pointer s0 + 4 /\
     program_counter s5 = program_counter s3 + 2 /\
     program_counter s6 = program_counter s2 + 2 /\
     program_counter s7 = program_counter s1 + 2 /\
     program_counter s8 = program_counter s0 + 2 /\
     stack_pointer s8 = stack_pointer s0).
Proof.
  split.
  - intros rnd1 rnd2 s a1 a2 a3 Hwf Hf Hsp H0 HEE.
    pose proof (fetch_pc_bound _ _ _ _ _ Hwf Hf) as Hpc.
    pose proof (fetch_Ok _ _ _ _ _ Hf) as (_ & _ & _ & Ha1 & Ha2 & Ha3).
    pose proof Hwf as Hwf'. wf_facts Hwf'.
    destruct (call_step rnd1 s a1 a2 a3 Hwf Hf Hsp)
      as (s1 & Hs1 & Hw1 & Hsp1 & Hst1 & Hpc1 & Hm1).
    assert (Hr : is_ret s1).
    { unfold is_ret. rewrite (fetch_bytes s1 0x00 0xEE); [reflexivity| |].
      - rewrite Hm1, Hpc1. exact H0.
      - rewrite Hm1, Hpc1.
        pose proof (lookup_lt_Some _ _ _ HEE).
        unfold wrap16. rewrite Z.mod_small by lia. exact HEE. }
    assert (Hv : stack s1 !! Z.to_nat (stack_pointer s1) = Some (program_counter s)).
    { rewrite Hst1, Hsp1. apply list_lookup_insert_eq. lia. }
    destruct (ret_step rnd2 s1 _ Hw1 Hr Hv) as (s2 & Hs2 & _ & Hsp2 & Hpc2 & _).
    exists s1, s2. repeat split; auto.
    + rewrite Hpc2. wrap_small. reflexivity.
    + rewrite Hsp2, Hsp1. wrap_small. lia.
  - intros rnd s0 s1 s2 s3 s4 s5 s6 s7 s8 Hw0 Hsp0 C0 C1 C2 C3 R4 R5 R6 R7
      E0 E1 E2 E3 E4 E5 E6 E7.
    pose proof Hw0 as Hw0'. wf_facts Hw0'.
    destruct (call_step_inv _ _ _ Hw0 C0 ltac:(lia) E0) as (Hw1 & Sp1 & St1 & Pc0).
    destruct (call_step_inv _ _ _ Hw1 C1 ltac:(lia) E1) as (Hw2 & Sp2 & St2 & Pc1).
    destruct (call_step_inv _ _ _ Hw2 C2 ltac:(lia) E2) as (Hw3 & Sp3 & St3 & Pc2).
    destruct (call_step_inv _ _ _ Hw3 C3 ltac:(lia) E3) as (Hw4 & Sp4 & St4 & Pc3).
    set (p := stack_pointer s0) in *.
    assert (L1 : length (stack s1) = 16%nat) by (rewrite St1, length_insert; lia).
    assert (L2 : length (stack s2) = 16%nat) by (rewrite St2, length_insert; lia).
    assert (L3 : length (stack s3) = 16%nat) by (rewrite St3, length_insert; lia).
    (* first return: the slot of the fourth call *)
    assert (V4 : stack s4 !! Z.to_nat (stack_pointer s4) = Some (program_counter s3)).
    { rewrite St4, Sp4, Sp3. apply list_lookup_insert_eq. lia. }
    destruct (ret_step_inv _ _ _ _ Hw4 R4 V4 E4) as (Hw5 & Sp5 & Pc5 & St5).
    assert (V5 : stack s5 !! Z.to_nat (stack_pointer s5) = Some (program_counter s2)).
    { rewrite St5, Sp5, St4, Sp4, Sp3, Sp2, Sp1. wrap_small.
      rewrite list_lookup_insert_ne by lia. rewrite St3, Sp2, Sp1.
      replace (p + 1 + 1 + 1 + 1 - 1) with (p + 1 + 1 + 1) by lia.
      apply list_lookup_insert_eq. lia. }
    destruct (ret_step_inv _ _ _ _ Hw5 R5 V5 E5) as (Hw6 & Sp6 & Pc6 & St6).
    assert (V6 : stack s6 !! Z.to_nat (stack_pointer s6) = Some (program_counter s1)).
    { rewrite St6, St5, Sp6, Sp5, St4, Sp4, Sp3, Sp2, Sp1. wrap_small.
      rewrite list_lookup_insert_ne by lia. rewrite St3, Sp2, Sp1.
      rewrite list_lookup_insert_ne by lia. rewrite St2, Sp1.
      replace (p + 1 + 1 + 1 + 1 - 1 - 1) with (p + 1 + 1) by lia.
      apply list_lookup_insert_eq. lia. }
    destruct (ret_step_inv _ _ _ _ Hw6 R6 V6 E6) as (Hw7 & Sp7 & Pc7 & St7).
    assert (V7 : stack s7 !! Z.to_nat (stack_pointer s7) = Some (program_counter s0)).
    { rewrite St7, St6, St5, Sp7, Sp6, Sp5, St4, Sp4, Sp3, Sp2, Sp1. wrap_small.
      rewrite list_lookup_insert_ne by lia. rewrite St3, Sp2, Sp1.
      rewrite list_lookup_insert_ne by lia. rewrite St2, Sp1.
      rewrite list_lookup_insert_ne by lia. rewrite St1.
      replace (p + 1 + 1 + 1 + 1 - 1 - 1 - 1) with (p + 1) by lia.
      apply list_lookup_insert_eq. lia. }
    destruct (ret_step_inv _ _ _ _ Hw7 R7 V7 E7) as (Hw8 & Sp8 & Pc8 & St8).
    rewrite Pc5, Pc6, Pc7, Pc8, Sp8, Sp7, Sp6, Sp5, Sp4, Sp3, Sp2, Sp1.
    wrap_small. repeat split; lia.
Qed.

Lemma call_return_roundtrip_witness :
  (exists s1 s2, step 0 (state_after call_rom 0) = Ok s1 /\ step 0 s1 = Ok s2 /\
     stack_pointer s1 = stack_pointer (state_after call_rom 0) + 1 /\
     program_counter s1 = 256 * 2 + 16 * 0 + 4 /\
     program_counter s2 = program_counter (state_after call_rom 0) + 2 /\
     stack_pointer s2 = stack_pointer (state_after call_rom 0)) /\
  (stack_pointer (state_after lifo_rom 4) = stack_pointer (state_after lifo_rom 0) + 4 /\
   program_counter (state_after lifo_rom 5) = program_counter (state_after lifo_rom 3) + 2 /\
   program_counter (state_after lifo_rom 6) = program_counter (state_after lifo_rom 2) + 2 /\
   program_counter (state_after lifo_rom 7) = program_counter (state_after lifo_rom 1) + 2 /\
   program_counter (state_after lifo_rom 8) = program_counter (state_after lifo_rom 0) + 2 /\
   stack_pointer (state_after lifo_rom 8) = stack_pointer (state_after lifo_rom 0)).
Proof.
  split.
  - apply (proj1 call_return_roundtrip 0 0 (state_after call_rom 0) 2 0 4);
      vm_compute; reflexivity.
  - apply (proj2 call_return_roundtrip (fun _ => 0)
      (state_after lifo_rom 0) (state_after lifo_rom 1) (state_after lifo_rom 2)
      (state_after lifo_rom 3) (state_after lifo_rom 4) (state_after lifo_rom 5)
      (state_after lifo_rom 6) (state_after lifo_rom 7) (state_after lifo_rom 8));
      try (vm_compute; reflexivity).
    + exists 2, 1, 0. vm_compute. reflexivity.
    + exists 2, 2, 0. vm_compute. reflexivity.
    + exists 2, 3, 0. vm_compute. reflexivity.
    + exists 2, 4, 0. vm_compute. reflexivity.
Defined.

(** C5: the skip family [3xnn], [4xnn], [5xy0], [9xy0] advances the program
    counter by 4 when its condition holds and by 2 otherwise, and leaves the
    registers, memory, stack, stack pointer, display and [I] as they were. *)
Theorem skip_family_pc rnd s op x y k :
  wf s = true -> fetch s = Ok (op, x, y, k) ->
  (op = 3 \/ op = 4 \/ (op = 5 /\ k = 0) \/ (op = 9 /\ k = 0)) ->
  exists s', step rnd s = Ok s' /\
    program_counter s' =
      program_counter s + (if skip_holds s op x y k then 4 else 2) /\
    registers s' = registers s /\ memory s' = memory s /\
    stack s' = stack s /\ stack_pointer s' = stack_pointer s /\
    display s' = display s /\ i s' = i s.
Proof. apply skip_family_step. Qed.

Lemma skip_family_pc_witness :
  exists s', step 0 (state_after [0x30; 0x00] 0) = Ok s' /\
    program_counter s' = program_counter (state_after [0x30; 0x00] 0) +
      (if skip_holds (state_after [0x30; 0x00] 0) 3 0 0 0 then 4 else 2) /\
    registers s' = registers (state_after [0x30; 0x00] 0) /\
    memory s' = memory (state_after [0x30; 0x00] 0) /\
    stack s' = stack (state_after [0x30; 0x00] 0) /\
    stack_pointer s' = stack_pointer (state_after [0x30; 0x00] 0) /\
    display s' = display (state_after [0x30; 0x00] 0) /\
    i s' = i (state_after [0x30; 0x00] 0).
Proof.
  apply (skip_family_pc 0 (state_after [0x30; 0x00] 0) 3 0 0 0).
  - vm_compute. reflexivity.
  - vm_compute. reflexivity.
  - left. reflexivity.
Defined.

(** C8: [00EE] with stack pointer 0 reads [stack[0]], wraps the stack
    pointer to 0xFF and leaves the program counter at [stack[0] + 2]
    (u16 addition). *)
Theorem ret_empty_stack_wraps rnd s :
  wf s = true -> fetch s = Ok (0, 0, 0xE, 0xE) -> stack_pointer s = 0 ->
  exists s', step rnd s = Ok s' /\ stack_pointer s' = 0xFF /\
    program_counter s' = (default 0 (stack s !! 0%nat) + 2) mod 65536.
Proof.
  intros Hwf Hf Hsp. pose proof Hwf as Hwf'. wf_facts Hwf'.
  destruct (lookup_lt_is_Some_2 (stack s) 0 ltac:(lia)) as [v Hv].
  assert (Hv' : stack s !! Z.to_nat (stack_pointer s) = Some v) by (rewrite Hsp; exact Hv).
  destruct (ret_step rnd s v Hwf Hf Hv') as (s' & Hs' & _ & Hsp' & Hpc' & _).
  exists s'. rewrite Hsp', Hpc', Hsp, Hv. split; [exact Hs'|]. split; reflexivity.
Qed.

Lemma ret_empty_stack_wraps_witness :
  exists s', step 0 (state_after [0x00; 0xEE] 0) = Ok s' /\ stack_pointer s' = 0xFF /\
    program_counter s' =
      (default 0 (stack (state_after [0x00; 0xEE] 0) !! 0%nat) + 2) mod 65536.
Proof.
  apply (ret_empty_stack_wraps 0 (state_after [0x00; 0xEE] 0));
    vm_compute; reflexivity.
Defined.

(** C1 (evaluated at a failing input): after [6103] sets V1 to 3, [F129]
    sets [I] to 5, the glyph address of the digit 1 (the nibble [x]), not
    15 = V1 * 5. *)
Theorem Fx29_uses_nibble_not_Vx :
  let s1 := state_after fx29_rom 1 in
  V s1 1 = 3 /\ fetch s1 = Ok (0xF, 1, 2, 9) /\
  (exists s2, step 0 s1 = Ok s2 /\ i s2 = 5 /\ i s2 <> V s1 1 * 5).
Proof.
  vm_compute. split; [reflexivity|]. split; [reflexivity|].
  eexists. split; [reflexivity|]. split; [reflexivity|]. discriminate.
Qed.

(** C3: for a ROM of 1 to 3584 bytes, [new] succeeds; the ROM occupies
    memory from 0x200 on, the font table memory [0, 80), and the
    registers, stack, display, [I], stack pointer, timers are zero and the
    program counter is 0x200. *)
Theorem new_layout (rom : list Z) :
  (1 <= length rom <= 3584)%nat ->
  exists m, new rom = Ok m /\
    take (length rom) (drop 512 (memory m)) = rom /\
    memory m !! 512%nat = rom !! 0%nat /\
    take 80 (memory m) = CHARACTERS /\
    length (memory m) = 4096%nat /\
    registers m = repeat 0 16 /\ stack m = repeat 0 16 /\
    display m = repeat 0 256 /\
    i m = 0 /\ stack_pointer m = 0 /\ delay m = 0 /\ sound m = 0 /\
    program_counter m = 0x200.
Proof.
  intros Hlen. unfold new.
  set (mem1 := take 512 (repeat 0 4096) ++ rom ++ drop (512 + length rom) (repeat 0 4096)).
  assert (L1 : length mem1 = 4096%nat).
  { subst mem1. rewrite !length_app, length_take, length_drop, repeat_length. lia. }
  assert (C1 : copy_from_slice (repeat 0 MEMORY_SIZE) (Z.to_nat PROGRAM_START) rom = Ok mem1).
  { unfold copy_from_slice. rewrite repeat_length.
    change (Z.to_nat PROGRAM_START) with 512%nat. change MEMORY_SIZE with 4096%nat.
    destruct (Nat.leb_spec (512 + length rom) 4096); [reflexivity | lia]. }
  assert (C2 : copy_from_slice mem1 0 CHARACTERS = Ok (CHARACTERS ++ drop 80 mem1)).
  { unfold copy_from_slice. rewrite L1. reflexivity. }
  rewrite C1. cbn [bind]. rewrite C2. cbn [bind].
  eexists. split; [reflexivity|]. cbn [memory registers stack display i
    stack_pointer delay sound program_counter].
  assert (D : drop 512 (CHARACTERS ++ drop 80 mem1) = rom ++ drop (512 + length rom) (repeat 0 4096)).
  { rewrite drop_app_ge by (cbn; lia). rewrite drop_drop.
    change (80 + (512 - length CHARACTERS))%nat with 512%nat.
    subst mem1. rewrite drop_app_ge.
    - rewrite length_take, repeat_length. reflexivity.
    - rewrite length_take, repeat_length. lia. }
  rewrite D. repeat split.
  - rewrite take_app_length. reflexivity.
  - rewrite <- (Nat.add_0_r 512), <- lookup_drop, D.
    destruct rom; [simpl in Hlen; lia|]. reflexivity.
  - rewrite length_app, length_drop, L1. reflexivity.
Qed.

Lemma new_layout_witness :
  exists m, new [0xA2; 0x2A] = Ok m /\
    take (length [0xA2; 0x2A]) (drop 512 (memory m)) = [0xA2; 0x2A] /\
    memory m !! 512%nat = [0xA2; 0x2A] !! 0%nat /\
    take 80 (memory m) = CHARACTERS /\
    length (memory m) = 4096%nat /\
    registers m = repeat 0 16 /\ stack m = repeat 0 16 /\
    display m = repeat 0 256 /\
    i m = 0 /\ stack_pointer m = 0 /\ delay m = 0 /\ sound m = 0 /\
    program_counter m = 0x200.
Proof. apply new_layout. simpl. lia. Defined.

(** C9: [5xyk] is executed as [5xy0] for every last nibble [k] (it never
    reaches the unimplemented arm), and [8xy6], [8xyE] do not read [y]. *)
Theorem decode_permissive rnd s x y k y' :
  (fetch s = Ok (5, x, y, k) ->
     step rnd s = bind (execute rnd s 5 x y 0) (fun t => Ok (finish t))) /\
  (fetch s = Ok (8, x, y, 6) ->
     step rnd s = bind (execute rnd s 8 x y' 6) (fun t => Ok (finish t))) /\
  (fetch s = Ok (8, x, y, 0xE) ->
     step rnd s = bind (execute rnd s 8 x y' 0xE) (fun t => Ok (finish t))) /\
  (wf s = true -> fetch s = Ok (5, x, y, k) -> exists s', step rnd s = Ok s').
Proof.
  repeat split; intros.
  - rewrite (step_fetch _ _ _ _ _ _ H). reflexivity.
  - rewrite (step_fetch _ _ _ _ _ _ H). reflexivity.
  - rewrite (step_fetch _ _ _ _ _ _ H). reflexivity.
  - rename H into Hwf, H0 into Hf. pose proof Hwf as Hwf'. wf_facts Hwf'.
    pose proof (fetch_Ok _ _ _ _ _ Hf) as (_ & _ & _ & Hx & Hy & _).
    rewrite (step_fetch _ _ _ _ _ _ Hf). unfold execute. simpl.
    rewrite (reg_V s x), (reg_V s y) by lia. simpl. eexists. reflexivity.
Qed.

Lemma decode_permissive_witness :
  let s := state_after [0x50; 0x13] 0 in
  (step 0 s = bind (execute 0 s 5 0 1 0) (fun t => Ok (finish t))) /\
  (exists s', step 0 s = Ok s').
Proof.
  intros s.
  destruct (decode_permissive 0 s 0 1 3 0) as (H1 & _ & _ & H4).
  split.
  - apply H1. vm_compute. reflexivity.
  - apply H4; vm_compute; reflexivity.
Defined.

Ltac split_conds :=
  repeat match goal with
  | H : (_ && _) = true |- _ => apply andb_true_iff in H as [? ?]
  | H : (_ =? _) = true |- _ => apply Z.eqb_eq in H; subst
  end.

Lemma execute_unknown rnd s n1 n2 n3 n4 :
  implemented n1 n2 n3 n4 = false ->
  execute rnd s n1 n2 n3 n4 = Err (Unimplemented n1 n2 n3 n4).
Proof.
  intros Himp. unfold execute. cbv zeta.
  repeat (match goal with |- context [if ?c then _ else _] =>
            let E := fresh "E" in destruct c eqn:E end;
          split_conds; simpl;
          try (simpl in Himp; discriminate);
          try reflexivity).
Qed.

(** C2 (amended): an instruction matching none of the implemented patterns
    makes [step] fail with the unimplemented-instruction fault, which
    carries the four nibbles and nothing else; [step] never continues. *)
Theorem unknown_opcode_fails rnd s n1 n2 n3 n4 :
  fetch s = Ok (n1, n2, n3, n4) -> implemented n1 n2 n3 n4 = false ->
  step rnd s = Err (Unimplemented n1 n2 n3 n4).
Proof.
  intros Hf Himp. rewrite (step_fetch _ _ _ _ _ _ Hf), execute_unknown by exact Himp.
  reflexivity.
Qed.

Lemma unknown_opcode_fails_witness :
  step 0 (state_after [0x01; 0x23] 0) = Err (Unimplemented 0 1 2 3).
Proof.
  apply (unknown_opcode_fails 0 (state_after [0x01; 0x23] 0) 0 1 2 3);
    vm_compute; reflexivity.
Defined.

(** C2 as stated fails: [0123] at 0x200 and at 0x202 give the same fault,
    so the fault does not identify the program counter. *)
Lemma unknown_opcode_claim_fails : ~ unknown_opcode_claim.
Proof.
  intros H.
  destruct (H 0 (state_after [0x01; 0x23] 0) 0 1 2 3)
    as (f & Hs & Hf & Hid); [vm_compute; reflexivity | vm_compute; reflexivity |].
  apply (Hid 0 (state_after [0x00; 0xE0; 0x01; 0x23] 1)).
  - vm_compute. discriminate.
  - rewrite Hf. vm_compute. reflexivity.
Qed.

Lemma store_loop_spec count : forall k s,
  0 <= i s ->
  (Z.to_nat (i s) + k + count <= length (memory s))%nat ->
  (k + count <= length (registers s))%nat ->
  exists s', store_loop k count s = Ok s' /\ s' = with_memory s (memory s') /\
    length (memory s') = length (memory s) /\
    forall a : nat, memory s' !! a =
      if decide (Z.to_nat (i s) + k <= a < Z.to_nat (i s) + k + count)%nat
      then registers s !! (a - Z.to_nat (i s))%nat else memory s !! a.
Proof.
  induction count as [|count IH]; intros k s Hi Hm Hr; simpl.
  - exists s. split; [reflexivity|]. split; [destruct s; reflexivity|]. split; [reflexivity|].
    intros a. destruct (decide _); [lia | reflexivity].
  - destruct (lookup_lt_is_Some_2 (registers s) k ltac:(lia)) as [v Hv].
    assert (Hreg : reg s (Z.of_nat k) = Ok v) by (unfold reg, get; rewrite Nat2Z.id, Hv; reflexivity).
    rewrite Hreg. simpl.
    assert (Hidx : Z.to_nat (i s + Z.of_nat k) = (Z.to_nat (i s) + k)%nat) by lia.
    unfold set_mem. rewrite set_Ok by lia. simpl. rewrite Hidx.
    set (s1 := with_memory s (<[(Z.to_nat (i s) + k)%nat := v]> (memory s))).
    destruct (IH (S k) s1) as (s' & Hrun & Hframe & Hlen & Hmem);
      [simpl; lia | subst s1; simpl; rewrite length_insert; lia | simpl; lia |].
    exists s'. split; [exact Hrun|]. split.
    { rewrite Hframe. subst s1. destruct s; reflexivity. }
    split; [rewrite Hlen; subst s1; simpl; apply length_insert|].
    intros a. rewrite Hmem. subst s1. simpl.
    repeat case_decide;
      try lia; try reflexivity;
      first
        [ rewrite list_lookup_insert_ne by lia; reflexivity
        | assert (a = Z.to_nat (i s) + k)%nat as -> by lia;
          rewrite list_lookup_insert_eq by lia;
          replace (Z.to_nat (i s) + k - Z.to_nat (i s))%nat with k by lia; auto ].
Qed.

Lemma load_loop_spec count : forall k s,
  0 <= i s ->
  (Z.to_nat (i s) + k + count <= length (memory s))%nat ->
  (k + count <= length (registers s))%nat ->
  exists s', load_loop k count s = Ok s' /\ s' = with_registers s (registers s') /\
    forall r : nat, registers s' !! r =
      if decide (k <= r < k + count)%nat
      then memory s !! (Z.to_nat (i s) + r)%nat else registers s !! r.
Proof.
  induction count as [|count IH]; intros k s Hi Hm Hr; simpl.
  - exists s. split; [reflexivity|]. split; [destruct s; reflexivity|].
    intros r. destruct (decide _); [lia | reflexivity].
  - assert (Hidx : Z.to_nat (i s + Z.of_nat k) = (Z.to_nat (i s) + k)%nat) by lia.
    destruct (lookup_lt_is_Some_2 (memory s) (Z.to_nat (i s) + k) ltac:(lia)) as [v Hv].
    assert (Hget : get (memory s) (i s + Z.of_nat k) = Ok v)
      by (unfold get; rewrite Hidx, Hv; reflexivity).
    rewrite Hget. simpl.
    rewrite set_reg_Ok by lia. simpl. rewrite Nat2Z.id.
    set (s1 := with_registers s (<[k := v]> (registers s))).
    destruct (IH (S k) s1) as (s' & Hrun & Hframe & Hreg);
      [simpl; lia | simpl; lia | subst s1; simpl; rewrite length_insert; lia |].
    exists s'. split; [exact Hrun|]. split.
    { rewrite Hframe. subst s1. destruct s; reflexivity. }
    intros r. rewrite Hreg. subst s1. simpl.
    repeat case_decide;
      try lia; try reflexivity;
      first
        [ rewrite list_lookup_insert_ne by lia; reflexivity
        | assert (r = k) as -> by lia;
          rewrite list_lookup_insert_eq by lia; congruence ].
Qed.

(** C10: with [I + x + 1 <= 4096], [Fx55] writes exactly
    [memory[I ..= I + x]] from [V0 ..= Vx] and changes no register and no
    other memory byte; [Fx65] writes exactly [V0 ..= Vx] from
    [memory[I ..= I + x]] and changes no register above [Vx] and no memory.
    Neither changes [I]. *)
Theorem Fx55_Fx65_frame rnd s x :
  wf s = true -> i s + x + 1 <= 4096 ->
  (fetch s = Ok (0xF, x, 5, 5) ->
   exists s', step rnd s = Ok s' /\ i s' = i s /\ registers s' = registers s /\
     (forall k, 0 <= k <= x ->
        memory s' !! Z.to_nat (i s + k) = registers s !! Z.to_nat k) /\
     (forall a, 0 <= a -> a < i s \/ i s + x < a ->
        memory s' !! Z.to_nat a = memory s !! Z.to_nat a)) /\
  (fetch s = Ok (0xF, x, 6, 5) ->
   exists s', step rnd s = Ok s' /\ i s' = i s /\ memory s' = memory s /\
     (forall k, 0 <= k <= x ->
        registers s' !! Z.to_nat k = memory s !! Z.to_nat (i s + k)) /\
     (forall k, x < k -> registers s' !! Z.to_nat k = registers s !! Z.to_nat k)).
Proof.
  intros Hwf Hb. wf_facts Hwf. split; intros Hf;
    pose proof (fetch_Ok _ _ _ _ _ Hf) as (_ & _ & _ & Hx & _);
    rewrite (step_fetch rnd _ _ _ _ _ Hf); unfold execute; simpl.
  - destruct (store_loop_spec (Z.to_nat x + 1) 0 s) as (s' & Hrun & Hframe & _ & Hm);
      [lia | lia | lia |].
    rewrite Hrun. simpl. eexists. split; [reflexivity|].
    pose proof (finish_fields s') as (-> & -> & -> & _).
    assert (Hr' : registers s' = registers s) by (rewrite Hframe; reflexivity).
    assert (Hi' : i s' = i s) by (rewrite Hframe; reflexivity).
    split; [exact Hi'|]. split; [exact Hr'|]. split.
    + intros k Hk. rewrite Hm. case_decide; [|lia]. f_equal. lia.
    + intros a Ha Hout. rewrite Hm. case_decide; [lia | reflexivity].
  - destruct (load_loop_spec (Z.to_nat x + 1) 0 s) as (s' & Hrun & Hframe & Hr);
      [lia | lia | lia |].
    rewrite Hrun. simpl. eexists. split; [reflexivity|].
    pose proof (finish_fields s') as (-> & -> & -> & _).
    assert (Hm' : memory s' = memory s) by (rewrite Hframe; reflexivity).
    assert (Hi' : i s' = i s) by (rewrite Hframe; reflexivity).
    split; [exact Hi'|]. split; [exact Hm'|]. split.
    + intros k Hk. rewrite Hr. case_decide; [|lia]. f_equal. lia.
    + intros k Hk. rewrite Hr. case_decide; [lia | reflexivity].
Qed.

Lemma Fx55_Fx65_frame_witness :
  (exists s', step 0 (state_after [0xA3; 0x00; 0xF2; 0x55; 0xF2; 0x65] 1) = Ok s' /\
     i s' = 0x300 /\
     registers s' = registers (state_after [0xA3; 0x00; 0xF2; 0x55; 0xF2; 0x65] 1) /\
     (forall k, 0 <= k <= 2 -> memory s' !! Z.to_nat (0x300 + k) =
        registers (state_after [0xA3; 0x00; 0xF2; 0x55; 0xF2; 0x65] 1) !! Z.to_nat k) /\
     (forall a, 0 <= a -> a < 0x300 \/ 0x300 + 2 < a -> memory s' !! Z.to_nat a =
        memory (state_after [0xA3; 0x00; 0xF2; 0x55; 0xF2; 0x65] 1) !! Z.to_nat a)) /\
  (exists s', step 0 (state_after [0xA3; 0x00; 0xF2; 0x55; 0xF2; 0x65] 2) = Ok s' /\
     i s' = 0x300 /\
     memory s' = memory (state_after [0xA3; 0x00; 0xF2; 0x55; 0xF2; 0x65] 2) /\
     (forall k, 0 <= k <= 2 -> registers s' !! Z.to_nat k =
        memory (state_after [0xA3; 0x00; 0xF2; 0x55; 0xF2; 0x65] 2) !! Z.to_nat (0x300 + k)) /\
     (forall k, 2 < k -> registers s' !! Z.to_nat k =
        registers (state_after [0xA3; 0x00; 0xF2; 0x55; 0xF2; 0x65] 2) !! Z.to_nat k)).
Proof.
  split.
  - refine (proj1 (Fx55_Fx65_frame 0 (state_after [0xA3; 0x00; 0xF2; 0x55; 0xF2; 0x65] 1) 2
                     _ _) _); vm_compute; try reflexivity; discriminate.
  - refine (proj2 (Fx55_Fx65_frame 0 (state_after [0xA3; 0x00; 0xF2; 0x55; 0xF2; 0x65] 2) 2
                     _ _) _); vm_compute; try reflexivity; discriminate.
Defined.

Lemma row_index_bound px py k : 0 <= row_index px py k < 256.
Proof. unfold row_index, wrap8. apply Z.mod_pos_bound. lia. Qed.

Lemma row_index_inj px py j1 j2 :
  (j1 < 15)%nat -> (j2 < 15)%nat ->
  Z.to_nat (row_index px py j1) = Z.to_nat (row_index px py j2) -> j1 = j2.
Proof.
  intros H1 H2 E. pose proof (row_index_bound px py j1). pose proof (row_index_bound px py j2).
  apply Z2Nat.inj in E; [|lia|lia]. revert E. unfold row_index, wrap8.
  intros E. Z.div_mod_to_equations. lia.
Qed.

Lemma existsb_ext_In {A} (f g : A -> bool) (l : list A) :
  (forall a, In a l -> f a = g a) -> existsb f l = existsb g l.
Proof.
  induction l as [|a l IH]; intros H; simpl; [reflexivity|].
  rewrite (H a (or_introl eq_refl)), IH; [reflexivity|]. intros b Hb. apply H. now right.
Qed.

Lemma draw_loop_spec x y px py rows : forall k s changed,
  reg s x = Ok px -> reg s y = Ok py -> length (display s) = 256%nat -> 0 <= i s ->
  (Z.to_nat (i s) + k + rows <= length (memory s))%nat ->
  (forall j1 j2, (k <= j1 < k + rows)%nat -> (k <= j2 < k + rows)%nat ->
     Z.to_nat (row_index px py j1) = Z.to_nat (row_index px py j2) -> j1 = j2) ->
  exists d', draw_loop x y k rows s changed =
      Ok (with_display s d',
          changed || existsb (row_clears (display s) (memory s) (Z.to_nat (i s)) px py)
                       (seq k rows)) /\
    length d' = 256%nat /\
    (forall j, (k <= j < k + rows)%nat ->
       d' !! Z.to_nat (row_index px py j) =
       Some (Z.lxor (byte_at (display s) (Z.to_nat (row_index px py j)))
                    (byte_at (memory s) (Z.to_nat (i s) + j)))) /\
    (forall a, (forall j, (k <= j < k + rows)%nat -> a <> Z.to_nat (row_index px py j)) ->
       d' !! a = display s !! a).
Proof.
  induction rows as [|rows IH]; intros k s changed Hx Hy Hlen Hi Hm Hinj.
  - exists (display s). split; [rewrite orb_false_r; destruct s; reflexivity|].
    split; [exact Hlen|]. split; [intros; lia | reflexivity].
  - cbn [draw_loop]. rewrite Hx, Hy. cbn [bind].
    change (wrap8 (px / 8 + wrap8 (wrap8 (py + Z.of_nat k) * 8))) with (row_index px py k).
    pose proof (row_index_bound px py k) as Hb.
    destruct (lookup_lt_is_Some_2 (display s) (Z.to_nat (row_index px py k)) ltac:(lia))
      as [c Hc].
    assert (Gd : get (display s) (row_index px py k) = Ok c)
      by (unfold get; rewrite Hc; reflexivity).
    destruct (lookup_lt_is_Some_2 (memory s) (Z.to_nat (i s) + k) ltac:(lia)) as [m Hmv].
    assert (Gm : get (memory s) (i s + Z.of_nat k) = Ok m)
      by (unfold get; replace (Z.to_nat (i s + Z.of_nat k)) with (Z.to_nat (i s) + k)%nat
            by lia; rewrite Hmv; reflexivity).
    rewrite Gd, Gm. cbn [bind].
    rewrite set_Ok by lia. cbn [bind].
    set (d1 := <[Z.to_nat (row_index px py k) := Z.lxor c m]> (display s)).
    assert (Hne : forall j, (S k <= j < S k + rows)%nat ->
              Z.to_nat (row_index px py k) <> Z.to_nat (row_index px py j)).
    { intros j Hj E. apply Hinj in E; lia. }
    destruct (IH (S k) (with_display s d1)
                (changed || negb (Z.land c (Z.lxor (Z.lxor c m) 0xFF) =? 0)))
      as (d' & Hrun & Hlen' & Hset & Hkeep);
      [exact Hx | exact Hy | subst d1; simpl; rewrite length_insert; exact Hlen
      | exact Hi | simpl; lia | intros j1 j2 ? ? E; apply Hinj in E; lia |].
    exists d'. rewrite Hrun. simpl in Hset, Hkeep.
    assert (Hbd : forall j, (S k <= j < S k + rows)%nat ->
              byte_at d1 (Z.to_nat (row_index px py j)) =
              byte_at (display s) (Z.to_nat (row_index px py j))).
    { intros j Hj. unfold byte_at. subst d1.
      rewrite list_lookup_insert_ne by (apply Hne; exact Hj). reflexivity. }
    split.
    { f_equal. f_equal. cbn [seq existsb]. rewrite orb_assoc. f_equal. f_equal.
      - unfold row_clears, byte_at. rewrite Hc, Hmv. reflexivity.
      - simpl. apply existsb_ext_In. intros j Hj%in_seq.
        unfold row_clears. rewrite Hbd by lia. reflexivity. }
    split; [exact Hlen'|]. split.
    + intros j Hj. destruct (decide (j = k)) as [->|Hjk].
      * rewrite Hkeep by (intros j Hj' E; apply (Hne j); [lia | exact E]).
        subst d1. rewrite list_lookup_insert_eq by lia.
        unfold byte_at. rewrite Hc, Hmv. reflexivity.
      * rewrite Hset by lia. rewrite Hbd by lia. reflexivity.
    + intros a Ha. rewrite Hkeep by (intros j Hj; apply Ha; lia).
      subst d1. rewrite list_lookup_insert_ne; [reflexivity|].
      intros E. apply (Ha k); [lia | symmetry; exact E].
Qed.

Lemma draw_step rnd s x y n :
  length (registers s) = 16%nat -> length (display s) = 256%nat -> 0 <= i s ->
  i s + n <= Z.of_nat (length (memory s)) ->
  fetch s = Ok (0xD, x, y, n) ->
  exists d', step rnd s =
      Ok (finish (with_registers (with_display s d')
        (<[15%nat := if existsb (row_clears (display s) (memory s) (Z.to_nat (i s))
                                   (V s x) (V s y)) (seq 0 (Z.to_nat n))
                     then 1 else 0]> (registers s)))) /\
    length d' = 256%nat /\
    (forall j, (j < Z.to_nat n)%nat ->
       d' !! Z.to_nat (row_index (V s x) (V s y) j) =
       Some (Z.lxor (byte_at (display s) (Z.to_nat (row_index (V s x) (V s y) j)))
                    (byte_at (memory s) (Z.to_nat (i s) + j)))) /\
    (forall a, (forall j, (j < Z.to_nat n)%nat -> a <> Z.to_nat (row_index (V s x) (V s y) j)) ->
       d' !! a = display s !! a).
Proof.
  intros Hr Hd Hi Hb Hf.
  pose proof (fetch_Ok _ _ _ _ _ Hf) as (_ & _ & _ & Hx & Hy & Hn).
  rewrite (step_fetch rnd _ _ _ _ _ Hf). unfold execute. simpl.
  destruct (draw_loop_spec x y (V s x) (V s y) (Z.to_nat n) 0 s false)
    as (d' & Hrun & Hlen & Hset & Hkeep);
    [apply reg_V; lia | apply reg_V; lia | exact Hd | exact Hi | lia
    | intros j1 j2 ? ? E; apply row_index_inj in E; lia |].
  rewrite Hrun. cbn [bind]. rewrite set_reg_Ok by (simpl; lia). cbn [bind].
  exists d'. split; [reflexivity|]. split; [exact Hlen|]. split.
  - intros j Hj. apply Hset. lia.
  - intros a Ha. apply Hkeep. intros j Hj. apply Ha. lia.
Qed.

Lemma byte_at_zero l a : Forall (fun z => z = 0) l -> byte_at l a = 0.
Proof.
  intros H. unfold byte_at. destruct (l !! a) eqn:E; [|reflexivity].
  simpl. exact (Forall_lookup_1 _ _ _ _ H E).
Qed.

Lemma byte_at_byte l a :
  Forall (fun z => is_byte z = true) l -> 0 <= byte_at l a < 256.
Proof.
  intros H. unfold byte_at. destruct (l !! a) eqn:E; simpl; [|lia].
  apply is_byte_spec. exact (Forall_lookup_1 _ _ _ _ H E).
Qed.

Lemma land_byte_255 v : 0 <= v < 256 -> Z.land v 0xFF = v.
Proof.
  intros H. change 0xFF with (Z.ones 8). rewrite Z.land_ones by lia.
  apply Z.mod_small. change (2 ^ 8) with 256. lia.
Qed.

(** C7 (as the code has it): from an all-zero display, the same [Dxyn]
    run twice (same [Vx], [Vy], [n] and [I], with [I + n <= 4096]) leaves
    the display all zero again, and the second draw sets [VF] to 1 exactly
    when some sprite byte [memory[I .. I + n)] is nonzero, to 0 otherwise. *)
Theorem draw_twice_restores rnd rnd' s1 s2 x y n :
  wf s1 = true -> Forall (fun z => z = 0) (display s1) -> i s1 + n <= 4096 ->
  fetch s1 = Ok (0xD, x, y, n) -> step rnd s1 = Ok s2 ->
  fetch s2 = Ok (0xD, x, y, n) -> V s2 x = V s1 x -> V s2 y = V s1 y ->
  exists s3, step rnd' s2 = Ok s3 /\ display s3 = display s1 /\
    V s3 15 =
      (if existsb (fun j => negb (byte_at (memory s1) (Z.to_nat (i s1) + j) =? 0))
                  (seq 0 (Z.to_nat n))
       then 1 else 0).
Proof.
  intros Hwf Hz Hb Hf1 Hs1 Hf2 HVx HVy. wf_facts Hwf.
  destruct (draw_step rnd s1 x y n) as (d1 & E1 & L1 & S1 & K1); [lia | lia | lia | lia | exact Hf1 |].
  rewrite E1 in Hs1. injection Hs1 as Hs2.
  pose proof (finish_fields (with_registers (with_display s1 d1)
    (<[15%nat := if existsb (row_clears (display s1) (memory s1) (Z.to_nat (i s1))
                               (V s1 x) (V s1 y)) (seq 0 (Z.to_nat n))
                 then 1 else 0]> (registers s1))))
    as (M2 & R2 & I2 & _ & _ & _ & D2 & _).
  rewrite Hs2 in M2, R2, I2, D2. simpl in M2, R2, I2, D2.
  destruct (draw_step rnd' s2 x y n) as (d2 & E2 & L2 & S2 & K2);
    [rewrite R2, length_insert; exact Hreg | rewrite D2; exact L1 | lia
    | rewrite M2, I2; lia | exact Hf2 |].
  rewrite HVx, HVy, D2, M2, I2 in E2. rewrite HVx, HVy, D2, M2, I2 in S2.
  rewrite HVx, HVy, D2 in K2.
  (* After the first draw, row [j] of the sprite sits at its row index. *)
  assert (Hd1 : forall j, (j < Z.to_nat n)%nat ->
            byte_at d1 (Z.to_nat (row_index (V s1 x) (V s1 y) j)) =
            byte_at (memory s1) (Z.to_nat (i s1) + j)).
  { intros j Hj. unfold byte_at at 1. rewrite S1 by exact Hj.
    simpl. rewrite byte_at_zero by exact Hz. apply Z.lxor_0_l. }
  eexists. split; [exact E2|].
  pose proof (finish_fields (with_registers (with_display s2 d2)
    (<[15%nat := if existsb (row_clears d1 (memory s1) (Z.to_nat (i s1))
                               (V s1 x) (V s1 y)) (seq 0 (Z.to_nat n))
                 then 1 else 0]> (registers s2))))
    as (_ & R3 & _ & _ & _ & _ & D3 & _).
  rewrite D3. split.
  - apply list_eq. intros a.
    destruct (existsb (fun j => Nat.eqb a (Z.to_nat (row_index (V s1 x) (V s1 y) j)))
                (seq 0 (Z.to_nat n))) eqn:Ea.
    + apply existsb_exists in Ea as (j & Hj%in_seq & Ej%Nat.eqb_eq). subst a.
      rewrite S2 by lia. rewrite Hd1 by lia. rewrite Z.lxor_nilpotent.
      pose proof (row_index_bound (V s1 x) (V s1 y) j).
      destruct (lookup_lt_is_Some_2 (display s1) (Z.to_nat (row_index (V s1 x) (V s1 y) j)))
        as [z Hzv]; [lia|].
      rewrite Hzv. f_equal. symmetry. exact (Forall_lookup_1 _ _ _ _ Hz Hzv).
    + assert (Hnot : forall j, (j < Z.to_nat n)%nat ->
                a <> Z.to_nat (row_index (V s1 x) (V s1 y) j)).
      { intros j Hj E. rewrite <- not_true_iff_false in Ea. apply Ea.
        apply existsb_exists. exists j. split; [apply in_seq; lia|].
        apply Nat.eqb_eq. exact E. }
      rewrite K2 by exact Hnot. apply K1. exact Hnot.
  - match goal with |- V ?t 15 = _ =>
      transitivity (default 0 (registers t !! 15%nat)); [reflexivity|] end.
    rewrite R3. simpl. rewrite list_lookup_insert_eq by (rewrite R2, length_insert; lia).
    simpl. erewrite existsb_ext_In; [reflexivity|]. intros j Hj%in_seq.
    unfold row_clears. rewrite Hd1 by lia. rewrite Z.lxor_nilpotent.
    change (Z.lxor 0 0xFF) with 0xFF. rewrite land_byte_255 by (apply byte_at_byte; exact Fmem).
    reflexivity.
Qed.

Lemma draw_twice_restores_witness :
  exists s3, step 0 (state_after draw_rom 1) = Ok s3 /\
    display s3 = display (state_after draw_rom 0) /\ V s3 15 = 1.
Proof.
  refine (draw_twice_restores 0 0 (state_after draw_rom 0) (state_after draw_rom 1) 0 0 1
            _ _ _ _ _ _ _ _);
    vm_compute; first [reflexivity | discriminate | repeat constructor].
Defined.

(** C7 counterexample: with an all-zero sprite byte the second draw clears
    nothing and sets [VF] to 0. *)
Lemma draw_twice_claim_fails : ~ draw_twice_claim.
Proof.
  intros H.
  destruct (H 0 0 (state_after blank_draw_rom 1) (state_after blank_draw_rom 2) 0 0 1)
    as (s3 & Hs & _ & Hv);
    [vm_compute; first [reflexivity | discriminate | repeat constructor] ..|].
  vm_compute in Hs. injection Hs as <-. vm_compute in Hv. discriminate.
Qed.

(** ** Timers *)

Lemma wf_nonneg s : wf s = true -> nonneg s.
Proof.
  intros Hwf. wf_facts Hwf. repeat split; try lia.
  - eapply Forall_impl; [exact Freg|]. intros z Hz%is_byte_spec. lia.
  - eapply Forall_impl; [exact Fmem|]. intros z Hz%is_byte_spec. lia.
Qed.

Lemma nn_reg s x v : reg s x = Ok v -> nonneg s -> 0 <= v.
Proof.
  intros H%get_Ok (Hr & _). exact (Forall_lookup_1 _ _ _ _ Hr H).
Qed.

Lemma nn_get_mem s a v : get (memory s) a = Ok v -> nonneg s -> 0 <= v.
Proof.
  intros H%get_Ok (_ & Hm & _). exact (Forall_lookup_1 _ _ _ _ Hm H).
Qed.

Lemma nn_set_reg s x v t : set_reg s x v = Ok t -> nonneg s -> 0 <= v -> nonneg t.
Proof.
  unfold set_reg. intros H (Hr & Hm & Hd & Hs & Hin) Hv.
  apply bind_Ok_inv in H as (r & Hset & [= <-]).
  apply set_Ok_inv in Hset as (_ & ->).
  repeat split; simpl; auto. apply Forall_insert; auto.
Qed.

Lemma nn_set_mem s a v t : set_mem s a v = Ok t -> nonneg s -> 0 <= v -> nonneg t.
Proof.
  unfold set_mem. intros H (Hr & Hm & Hd & Hs & Hin) Hv.
  apply bind_Ok_inv in H as (m & Hset & [= <-]).
  apply set_Ok_inv in Hset as (_ & ->).
  repeat split; simpl; auto. apply Forall_insert; auto.
Qed.

Lemma nn_store_loop count : forall k s t,
  store_loop k count s = Ok t -> nonneg s -> nonneg t.
Proof.
  induction count as [|count IH]; intros k s t H Hs; simpl in H.
  - injection H as <-. exact Hs.
  - apply bind_Ok_inv in H as (v & Hv & H). apply bind_Ok_inv in H as (s1 & Hs1 & H).
    eapply IH; [exact H|]. eapply nn_set_mem; [exact Hs1 | exact Hs | eapply nn_reg; eauto].
Qed.

Lemma nn_load_loop count : forall k s t,
  load_loop k count s = Ok t -> nonneg s -> nonneg t.
Proof.
  induction count as [|count IH]; intros k s t H Hs; simpl in H.
  - injection H as <-. exact Hs.
  - apply bind_Ok_inv in H as (v & Hv & H). apply bind_Ok_inv in H as (s1 & Hs1 & H).
    eapply IH; [exact H|]. eapply nn_set_reg; [exact Hs1 | exact Hs | eapply nn_get_mem; eauto].
Qed.

Lemma nn_draw_loop x y rows : forall k s changed t c,
  draw_loop x y k rows s changed = Ok (t, c) -> nonneg s -> nonneg t.
Proof.
  induction rows as [|rows IH]; intros k s changed t c H Hs; simpl in H.
  - injection H as <- _. exact Hs.
  - repeat (apply bind_Ok_inv in H as (? & _ & H)).
    eapply IH; [exact H|]. exact Hs.
Qed.

Lemma nn_fields s t :
  registers t = registers s -> memory t = memory s -> delay t = delay s ->
  sound t = sound s -> input t = input s -> nonneg s -> nonneg t.
Proof. unfold nonneg. intros -> -> -> -> ->. auto. Qed.

Lemma nn_with_pc s v : nonneg s -> nonneg (with_pc s v).
Proof. apply nn_fields; reflexivity. Qed.
Lemma nn_with_i s v : nonneg s -> nonneg (with_i s v).
Proof. apply nn_fields; reflexivity. Qed.
Lemma nn_with_sp s v : nonneg s -> nonneg (with_sp s v).
Proof. apply nn_fields; reflexivity. Qed.
Lemma nn_with_stack s v : nonneg s -> nonneg (with_stack s v).
Proof. apply nn_fields; reflexivity. Qed.
Lemma nn_with_display s v : nonneg s -> nonneg (with_display s v).
Proof. apply nn_fields; reflexivity. Qed.
Lemma nn_skip s : nonneg s -> nonneg (skip s).
Proof. apply nn_fields; reflexivity. Qed.
Lemma nn_set_addr s a1 a2 a3 : nonneg s -> nonneg (set_addr s a1 a2 a3).
Proof. apply nn_fields; reflexivity. Qed.

Lemma nn_with_delay s v : nonneg s -> 0 <= v -> nonneg (with_delay s v).
Proof. unfold nonneg. simpl. tauto. Qed.
Lemma nn_with_sound s v : nonneg s -> 0 <= v -> nonneg (with_sound s v).
Proof. unfold nonneg. simpl. tauto. Qed.

Lemma nn_delay s : nonneg s -> 0 <= delay s.
Proof. unfold nonneg. tauto. Qed.
Lemma nn_input s : nonneg s -> 0 <= input s.
Proof. unfold nonneg. tauto. Qed.

Lemma nn_wrap8 z : 0 <= wrap8 z.
Proof. unfold wrap8. apply Z.mod_pos_bound. lia. Qed.
Lemma nn_lor a b : 0 <= a -> 0 <= b -> 0 <= Z.lor a b.
Proof. intros. apply Z.lor_nonneg. auto. Qed.
Lemma nn_land a b : 0 <= b -> 0 <= Z.land a b.
Proof. intros. apply Z.land_nonneg. auto. Qed.
Lemma nn_lxor a b : 0 <= a -> 0 <= b -> 0 <= Z.lxor a b.
Proof. intros. apply Z.lxor_nonneg. tauto. Qed.
Lemma nn_shiftr a n : 0 <= a -> 0 <= Z.shiftr a n.
Proof. intros. apply Z.shiftr_nonneg. exact H. Qed.
Lemma nn_imm a b : 0 <= b -> 0 <= imm a b.
Proof. intros. unfold imm. apply nn_lor; [apply nn_wrap8 | exact H]. Qed.
Lemma nn_div a b : 0 <= a -> 0 < b -> 0 <= a / b.
Proof. intros. apply Z.div_pos; lia. Qed.
Lemma nn_mod a b : 0 < b -> 0 <= a mod b.
Proof. intros. apply Z.mod_pos_bound. exact H. Qed.

Create HintDb nonneg.
#[local] Hint Resolve nn_reg nn_get_mem nn_set_reg nn_set_mem nn_store_loop nn_load_loop
  nn_draw_loop nn_with_pc nn_with_i nn_with_sp nn_with_stack nn_with_display nn_skip
  nn_set_addr nn_with_delay nn_with_sound nn_delay nn_input nn_wrap8 nn_lor nn_land nn_lxor
  nn_shiftr nn_imm nn_div nn_mod : nonneg.
#[local] Hint Extern 1 (0 < _) => lia : nonneg.
#[local] Hint Extern 1 (0 <= Z.pos _) => lia : nonneg.
#[local] Hint Extern 1 (0 <= Z0) => lia : nonneg.
#[local] Hint Extern 2 (0 <= (if ?c then _ else _)) => destruct c; lia : nonneg.
#[local] Hint Extern 2 (nonneg (if ?c then _ else _)) => destruct c : nonneg.

Ltac result_inv :=
  repeat match goal with
         | H : Err _ = Ok _ |- _ => discriminate H
         | H : Ok _ = Ok _ |- _ => injection H as <-
         | H : bind _ _ = Ok _ |- _ =>
             let v := fresh "v" in let Hv := fresh "Hv" in
             apply bind_Ok_inv in H as (v & Hv & H); cbv beta in H
         | p : (Chip8 * bool)%type |- _ => destruct p; cbv beta iota in *
         end.

Lemma execute_nonneg rnd s n1 n2 n3 n4 t :
  0 <= n4 -> nonneg s -> execute rnd s n1 n2 n3 n4 = Ok t -> nonneg t.
Proof.
  intros Hn4 Hs. unfold execute. cbv zeta.
  repeat (match goal with |- context [if ?c then _ else _] => destruct c end);
    intros Ht; result_inv; eauto 10 with nonneg.
Qed.

Lemma finish_nonneg t : nonneg t -> nonneg (finish t).
Proof.
  intros (Hr & Hm & Hd & Hs & Hin).
  pose proof (finish_fields t) as (Q1 & Q2 & _ & Q4 & _ & _ & _ & _ & Q9 & Q10).
  unfold nonneg. rewrite Q1, Q2, Q4, Q9, Q10.
  destruct (Z.ltb_spec 0 (delay t)); destruct (Z.ltb_spec 0 (sound t)); repeat split; auto; lia.
Qed.

Lemma step_inv rnd s s' :
  step rnd s = Ok s' ->
  exists n1 n2 n3 n4 t, fetch s = Ok (n1, n2, n3, n4) /\
    execute rnd s n1 n2 n3 n4 = Ok t /\ s' = finish t.
Proof.
  unfold step. intros H. apply bind_Ok_inv in H as ([[[n1 n2] n3] n4] & Hf & H).
  apply bind_Ok_inv in H as (t & He & [= <-]).
  exists n1, n2, n3, n4, t. auto.
Qed.

Lemma step_nonneg rnd s s' : nonneg s -> step rnd s = Ok s' -> nonneg s'.
Proof.
  intros Hs H. apply step_inv in H as (n1 & n2 & n3 & n4 & t & Hf & He & ->).
  pose proof (fetch_Ok _ _ _ _ _ Hf) as (_ & _ & _ & _ & _ & Hn4).
  apply finish_nonneg. eapply execute_nonneg; [| exact Hs | exact He]. lia.
Qed.

Lemma run_nonneg rnds : forall s sn, nonneg s -> run rnds s = Ok sn -> nonneg sn.
Proof.
  induction rnds as [|r rnds IH]; intros s sn Hs H; simpl in H.
  - injection H as <-. exact Hs.
  - apply bind_Ok_inv in H as (s1 & H1 & H). eapply IH; [|exact H].
    eapply step_nonneg; eauto.
Qed.

(** C6: in a step from a well-formed state, each timer left at [N] by the
    execute phase ends the step at [N - 1] if [N] is nonzero and at 0 if
    [N] is 0; along every run of steps from a well-formed state neither
    timer goes below 0. *)
Theorem timer_decay s :
  wf s = true ->
  (forall rnd s', step rnd s = Ok s' ->
     exists n1 n2 n3 n4 t, fetch s = Ok (n1, n2, n3, n4) /\
       execute rnd s n1 n2 n3 n4 = Ok t /\
       (delay t = 0 -> delay s' = 0) /\ (delay t <> 0 -> delay s' = delay t - 1) /\
       (sound t = 0 -> sound s' = 0) /\ (sound t <> 0 -> sound s' = sound t - 1)) /\
  (forall rnds sn, run rnds s = Ok sn -> 0 <= delay sn /\ 0 <= sound sn).
Proof.
  intros Hwf. pose proof (wf_nonneg s Hwf) as Hs. split.
  - intros rnd s' H. apply step_inv in H as (n1 & n2 & n3 & n4 & t & Hf & He & ->).
    exists n1, n2, n3, n4, t. split; [exact Hf|]. split; [exact He|].
    pose proof (fetch_Ok _ _ _ _ _ Hf) as (_ & _ & _ & _ & _ & Hn4).
    assert (Ht : nonneg t) by (eapply execute_nonneg; [| exact Hs | exact He]; lia).
    destruct Ht as (_ & _ & Hd & Hso & _).
    pose proof (finish_fields t) as (_ & _ & _ & _ & _ & _ & _ & _ & -> & ->).
    destruct (Z.ltb_spec 0 (delay t)); destruct (Z.ltb_spec 0 (sound t));
      repeat split; intros; lia.
  - intros rnds sn H. destruct (run_nonneg rnds s sn Hs H) as (_ & _ & Hd & Hso & _).
    lia.
Qed.

Lemma timer_decay_witness :
  (forall rnd s', step rnd (state_after timer_rom 1) = Ok s' ->
     exists n1 n2 n3 n4 t, fetch (state_after timer_rom 1) = Ok (n1, n2, n3, n4) /\
       execute rnd (state_after timer_rom 1) n1 n2 n3 n4 = Ok t /\
       (delay t = 0 -> delay s' = 0) /\ (delay t <> 0 -> delay s' = delay t - 1) /\
       (sound t = 0 -> sound s' = 0) /\ (sound t <> 0 -> sound s' = sound t - 1)) /\
  (forall rnds sn, run rnds (state_after timer_rom 1) = Ok sn ->
     0 <= delay sn /\ 0 <= sound sn).
Proof.
  apply (timer_decay (state_after timer_rom 1)). vm_compute. reflexivity.
Defined.

(** ** Instructions on registers *)

Lemma V_finish t k : V (finish t) k = V t k.
Proof. unfold V. pose proof (finish_fields t) as (_ & -> & _). reflexivity. Qed.

Lemma V_with_insert t l n v k :
  0 <= n -> 0 <= k -> (Z.to_nat n < length l)%nat ->
  V (with_registers t (<[Z.to_nat n := v]> l)) k =
  if k =? n then v else V (with_registers t l) k.
Proof.
  intros Hn Hk Hl. unfold V. simpl. destruct (Z.eqb_spec k n) as [->|Hne].
  - rewrite list_lookup_insert_eq by exact Hl. reflexivity.
  - rewrite list_lookup_insert_ne by lia. reflexivity.
Qed.

Lemma alu_frame_finish s t :
  memory t = memory s -> i t = i s -> stack t = stack s ->
  stack_pointer t = stack_pointer s -> display t = display s ->
  input t = input s -> program_counter t = program_counter s ->
  alu_frame s (finish t).
Proof.
  intros E1 E2 E3 E4 E5 E6 E7.
  pose proof (finish_fields t) as (Q1 & _ & Q3 & Q4 & Q5 & Q6 & Q7 & Q8 & _).
  unfold alu_frame. rewrite Q1, Q3, Q4, Q5, Q6, Q7, Q8, E1, E2, E3, E4, E5, E6, E7.
  repeat split.
Qed.

(** Runs the register arm of [execute] after [unfold execute; simpl]: every
    register read and write is in range for nibble indices. *)
Ltac reg_arm :=
  repeat first
    [ rewrite reg_V by (simpl; rewrite ?length_insert; lia); simpl
    | rewrite set_reg_Ok by (simpl; rewrite ?length_insert; lia); simpl ].

Ltac reg_values :=
  intros ? ?; rewrite V_finish;
  repeat (rewrite V_with_insert by (rewrite ?length_insert; lia)); reflexivity.

(** [8xy0] .. [8xy3] and [7xnn] write [Vx] only; [VF] is not touched
    (unless [x] is 15). *)
Theorem alu_no_flag rnd s x y op :
  wf s = true ->
  (fetch s = Ok (8, x, y, op) -> op <= 3 ->
   exists s', step rnd s = Ok s' /\ alu_frame s s' /\
     forall k, 0 <= k -> V s' k = if k =? x then alu8 op (V s x) (V s y) else V s k) /\
  (fetch s = Ok (7, x, y, op) ->
   exists s', step rnd s = Ok s' /\ alu_frame s s' /\
     forall k, 0 <= k -> V s' k = if k =? x then (V s x + (16 * y + op)) mod 256 else V s k).
Proof.
  intros Hwf. wf_facts Hwf. split.
  - intros Hf Hop. pose proof (fetch_Ok _ _ _ _ _ Hf) as (_ & _ & _ & Hx & Hy & Hn).
    rewrite (step_fetch rnd _ _ _ _ _ Hf).
    assert (op = 0 \/ op = 1 \/ op = 2 \/ op = 3) as Hcase by lia.
    destruct Hcase as [-> | [-> | [-> | ->]]]; unfold execute; simpl; reg_arm;
      eexists; (split; [reflexivity|]);
      (split; [apply alu_frame_finish; reflexivity | reg_values]).
  - intros Hf. pose proof (fetch_Ok _ _ _ _ _ Hf) as (_ & _ & _ & Hx & Hy & Hn).
    rewrite (step_fetch rnd _ _ _ _ _ Hf). unfold execute; simpl; reg_arm.
    eexists; (split; [reflexivity|]).
    split; [apply alu_frame_finish; reflexivity|].
    intros k Hk. rewrite V_finish, V_with_insert by lia. rewrite imm_nibbles by lia.
    reflexivity.
Qed.

(** [8xy4]: [Vx] gets the sum on [u8] and then [VF] the carry, so for
    [x = 15] the carry overwrites the sum. *)
Theorem add_carry_8xy4 rnd s x y :
  wf s = true -> fetch s = Ok (8, x, y, 4) ->
  exists s', step rnd s = Ok s' /\ alu_frame s s' /\
    forall k, 0 <= k ->
      V s' k = if k =? 15 then (if 256 <=? V s x + V s y then 1 else 0)
               else if k =? x then (V s x + V s y) mod 256 else V s k.
Proof.
  intros Hwf Hf. wf_facts Hwf. pose proof (fetch_Ok _ _ _ _ _ Hf) as (_ & _ & _ & Hx & Hy & _).
  rewrite (step_fetch rnd _ _ _ _ _ Hf). unfold execute; simpl; reg_arm.
  eexists; (split; [reflexivity|]).
  split; [apply alu_frame_finish; reflexivity | reg_values].
Qed.

(** [8xy5] and [8xy7]: [Vx] gets the difference on [u8], then [VF] is 1
    when no borrow occurs and 0 when one does. *)
Theorem sub_borrow_8xy5_8xy7 rnd s x y :
  wf s = true ->
  (fetch s = Ok (8, x, y, 5) ->
   exists s', step rnd s = Ok s' /\ alu_frame s s' /\
     forall k, 0 <= k ->
       V s' k = if k =? 15 then (if V s x <? V s y then 0 else 1)
                else if k =? x then (V s x - V s y) mod 256 else V s k) /\
  (fetch s = Ok (8, x, y, 7) ->
   exists s', step rnd s = Ok s' /\ alu_frame s s' /\
     forall k, 0 <= k ->
       V s' k = if k =? 15 then (if V s y <? V s x then 0 else 1)
                else if k =? x then (V s y - V s x) mod 256 else V s k).
Proof.
  intros Hwf. wf_facts Hwf. split; intros Hf;
    pose proof (fetch_Ok _ _ _ _ _ Hf) as (_ & _ & _ & Hx & Hy & _);
    rewrite (step_fetch rnd _ _ _ _ _ Hf); unfold execute; simpl; reg_arm;
    eexists; (split; [reflexivity|]);
    (split; [apply alu_frame_finish; reflexivity | reg_values]).
Qed.

(** [8xy6] and [8xyE]: [VF] gets [Vx | 1] (resp. [Vx | 8]), not the
    bit shifted out, and then [Vx] is shifted; [y] is not read. For
    [x = 15] the shift applies to the new [VF]. *)
Theorem shift_8xy6_8xyE rnd s x y :
  wf s = true ->
  (fetch s = Ok (8, x, y, 6) ->
   exists s', step rnd s = Ok s' /\ alu_frame s s' /\
     forall k, 0 <= k ->
       V s' k = if k =? x then (if x =? 15 then Z.lor (V s x) 1 else V s x) / 2
                else if k =? 15 then Z.lor (V s x) 1 else V s k) /\
  (fetch s = Ok (8, x, y, 0xE) ->
   exists s', step rnd s = Ok s' /\ alu_frame s s' /\
     forall k, 0 <= k ->
       V s' k = if k =? x then (2 * (if x =? 15 then Z.lor (V s x) 8 else V s x)) mod 256
                else if k =? 15 then Z.lor (V s x) 8 else V s k).
Proof.
  intros Hwf. wf_facts Hwf. split; intros Hf;
    pose proof (fetch_Ok _ _ _ _ _ Hf) as (_ & _ & _ & Hx & Hy & _);
    rewrite (step_fetch rnd _ _ _ _ _ Hf); unfold execute; simpl; reg_arm;
    eexists; (split; [reflexivity|]);
    (split; [apply alu_frame_finish; reflexivity|]);
    intros k Hk; rewrite V_finish;
    repeat (rewrite V_with_insert by (rewrite ?length_insert; lia)).
  - rewrite Z.shiftr_div_pow2 by lia. reflexivity.
  - rewrite Z.shiftl_mul_pow2 by lia. unfold wrap8. rewrite Z.mul_comm. reflexivity.
Qed.

Lemma land_255 a : Z.land a 255 = a mod 256.
Proof. change 255 with (Z.ones 8). rewrite Z.land_ones by lia. reflexivity. Qed.

(** [Cxnn]: for every random byte, [Vx] becomes a submask of [nn] and no
    other register changes; every submask of [nn] is the result of some
    random byte. *)
Theorem rand_mask_Cxnn s x a b :
  wf s = true -> fetch s = Ok (0xC, x, a, b) ->
  (forall rnd, 0 <= rnd < 256 ->
     exists s', step rnd s = Ok s' /\ alu_frame s s' /\
       Z.land (V s' x) (16 * a + b) = V s' x /\
       forall k, 0 <= k -> k <> x -> V s' k = V s k) /\
  (forall m, Z.land m (16 * a + b) = m ->
     exists rnd s', 0 <= rnd < 256 /\ step rnd s = Ok s' /\ V s' x = m).
Proof.
  intros Hwf Hf. wf_facts Hwf. pose proof (fetch_Ok _ _ _ _ _ Hf) as (_ & _ & _ & Hx & Ha & Hb).
  assert (Hstep : forall rnd, exists s', step rnd s = Ok s' /\ alu_frame s s' /\
            forall k, 0 <= k -> V s' k = if k =? x then Z.land rnd (16 * a + b) else V s k).
  { intros rnd. rewrite (step_fetch rnd _ _ _ _ _ Hf). unfold execute; simpl; reg_arm.
    eexists; (split; [reflexivity|]).
    split; [apply alu_frame_finish; reflexivity|].
    intros k Hk. rewrite V_finish, V_with_insert by lia. rewrite imm_nibbles by lia.
    reflexivity. }
  split.
  - intros rnd Hrnd. destruct (Hstep rnd) as (s' & E & Hfr & Hv).
    exists s'. split; [exact E|]. split; [exact Hfr|]. split.
    + rewrite Hv by lia. rewrite Z.eqb_refl. rewrite <- Z.land_assoc, Z.land_diag. reflexivity.
    + intros k Hk Hkx. rewrite Hv by lia. apply Z.eqb_neq in Hkx. rewrite Hkx. reflexivity.
  - intros m Hm. destruct (Hstep m) as (s' & E & _ & Hv).
    exists m, s'. split; [|split; [exact E|]].
    + assert (Hnn : 0 <= 16 * a + b < 256) by lia.
      rewrite <- Hm. split; [apply Z.land_nonneg; lia|].
      rewrite <- (Z.mod_small (16 * a + b) 256) by lia. rewrite <- land_255.
      rewrite Z.land_assoc, land_255. apply Z.mod_pos_bound. lia.
    + rewrite Hv by lia. rewrite Z.eqb_refl. exact Hm.
Qed.

(** [Ex9E] skips the next instruction when the input equals [Vx], [ExA1]
    when it differs; nothing else changes. *)
Theorem key_skip_Ex9E_ExA1 rnd s x :
  wf s = true ->
  (fetch s = Ok (0xE, x, 9, 0xE) ->
   exists s', step rnd s = Ok s' /\
     program_counter s' = program_counter s + (if input s =? V s x then 4 else 2) /\
     registers s' = registers s /\ memory s' = memory s /\ i s' = i s /\
     stack s' = stack s /\ stack_pointer s' = stack_pointer s /\ display s' = display s) /\
  (fetch s = Ok (0xE, x, 0xA, 1) ->
   exists s', step rnd s = Ok s' /\
     program_counter s' = program_counter s + (if input s =? V s x then 2 else 4) /\
     registers s' = registers s /\ memory s' = memory s /\ i s' = i s /\
     stack s' = stack s /\ stack_pointer s' = stack_pointer s /\ display s' = display s).
Proof.
  intros Hwf. wf_facts Hwf. split; intros Hf;
    pose proof (fetch_Ok _ _ _ _ _ Hf) as (Hpc0 & _ & _ & Hx & _ & _);
    rewrite (step_fetch rnd _ _ _ _ _ Hf); unfold execute; simpl; reg_arm;
    assert (Hpc4 : program_counter s < 4096) by lia;
    eexists; (split; [reflexivity|]);
    destruct (input s =? V s x); simpl;
    pose proof (finish_fields (skip s)) as (Q1 & Q2 & Q3 & _ & Q5 & Q6 & Q7 & Q8 & _);
    pose proof (finish_fields s) as (R1 & R2 & R3 & _ & R5 & R6 & R7 & R8 & _);
    rewrite ?Q1, ?Q2, ?Q3, ?Q5, ?Q6, ?Q7, ?Q8, ?R1, ?R2, ?R3, ?R5, ?R6, ?R7, ?R8;
    unfold skip; simpl; wrap_small; repeat split; lia.
Qed.

(** [Fx07] copies the delay timer as it is before the decrement of the
    step, and [Fx0A] copies the input at once: it does not wait for a key
    press, the program counter moves on by 2. *)
Theorem load_timer_input_Fx07_Fx0A rnd s x :
  wf s = true ->
  (fetch s = Ok (0xF, x, 0, 7) ->
   exists s', step rnd s = Ok s' /\ alu_frame s s' /\
     forall k, 0 <= k -> V s' k = if k =? x then delay s else V s k) /\
  (fetch s = Ok (0xF, x, 0, 0xA) ->
   exists s', step rnd s = Ok s' /\ alu_frame s s' /\
     forall k, 0 <= k -> V s' k = if k =? x then input s else V s k).
Proof.
  intros Hwf. wf_facts Hwf. split; intros Hf;
    pose proof (fetch_Ok _ _ _ _ _ Hf) as (_ & _ & _ & Hx & _ & _);
    rewrite (step_fetch rnd _ _ _ _ _ Hf); unfold execute; simpl; reg_arm;
    eexists; (split; [reflexivity|]);
    (split; [apply alu_frame_finish; reflexivity | reg_values]).
Qed.

(** [Annn] sets [I] to the 12-bit address [nnn]; [Fx1E] adds [Vx] to [I]
    on [u16] and leaves [VF] (every register) unchanged. *)
Theorem index_Annn_Fx1E rnd s a1 a2 a3 :
  wf s = true ->
  (fetch s = Ok (0xA, a1, a2, a3) ->
   exists s', step rnd s = Ok s' /\ i s' = 256 * a1 + 16 * a2 + a3 /\ i s' < 4096 /\
     registers s' = registers s /\ memory s' = memory s /\
     program_counter s' = program_counter s + 2) /\
  (fetch s = Ok (0xF, a1, 1, 0xE) ->
   exists s', step rnd s = Ok s' /\ i s' = (i s + V s a1) mod 65536 /\
     registers s' = registers s /\ memory s' = memory s /\
     program_counter s' = program_counter s + 2).
Proof.
  intros Hwf. wf_facts Hwf. split; intros Hf;
    pose proof (fetch_Ok _ _ _ _ _ Hf) as (Hpc0 & _ & _ & H1 & H2 & H3);
    assert (Hpc4 : program_counter s < 4096) by lia;
    rewrite (step_fetch rnd _ _ _ _ _ Hf); unfold execute; simpl; reg_arm;
    eexists; (split; [reflexivity|]);
    pose proof (finish_fields (with_i s (assemble_addr a1 a2 a3)))
      as (Q1 & Q2 & Q3 & _ & _ & _ & _ & Q8 & _);
    pose proof (finish_fields (with_i s (wrap16 (i s + V s a1))))
      as (R1 & R2 & R3 & _ & _ & _ & _ & R8 & _);
    rewrite ?Q1, ?Q2, ?Q3, ?Q8, ?R1, ?R2, ?R3, ?R8; simpl;
    rewrite ?assemble_addr_nibbles by lia; wrap_small; repeat split; try lia.
Qed.

(** ** Control flow *)

(** [1nnn] lands exactly on [nnn], also below 2 where [nnn - 2] wraps on
    [u16]; nothing but the program counter and the timers changes. *)
Theorem jump_1nnn rnd s a1 a2 a3 :
  wf s = true -> fetch s = Ok (1, a1, a2, a3) ->
  exists s', step rnd s = Ok s' /\ program_counter s' = 256 * a1 + 16 * a2 + a3 /\
    registers s' = registers s /\ memory s' = memory s /\ i s' = i s /\
    stack s' = stack s /\ stack_pointer s' = stack_pointer s /\ display s' = display s.
Proof.
  intros Hwf Hf. wf_facts Hwf. pose proof (fetch_Ok _ _ _ _ _ Hf) as (_ & _ & _ & H1 & H2 & H3).
  rewrite (step_fetch rnd _ _ _ _ _ Hf). unfold execute; simpl.
  eexists; (split; [reflexivity|]).
  pose proof (finish_fields (set_addr s a1 a2 a3)) as (Q1 & Q2 & Q3 & _ & Q5 & Q6 & Q7 & Q8 & _).
  rewrite Q1, Q2, Q3, Q5, Q6, Q7, Q8. unfold set_addr; simpl.
  rewrite assemble_addr_nibbles, wrap16_addr_roundtrip by lia. repeat split.
Qed.

(** [Bnnn] sets the program counter to [V0 + nnn] before the [+ 2] of the
    step, so it lands two bytes past the target that [1nnn] would reach. *)
Theorem jump_Bnnn_offset rnd s a1 a2 a3 :
  wf s = true -> fetch s = Ok (0xB, a1, a2, a3) ->
  exists s', step rnd s = Ok s' /\
    program_counter s' = V s 0 + (256 * a1 + 16 * a2 + a3) + 2 /\
    registers s' = registers s /\ memory s' = memory s /\ i s' = i s /\
    stack s' = stack s /\ stack_pointer s' = stack_pointer s /\ display s' = display s.
Proof.
  intros Hwf Hf. wf_facts Hwf. pose proof (fetch_Ok _ _ _ _ _ Hf) as (_ & _ & _ & H1 & H2 & H3).
  assert (H0 : 0 <= V s 0 < 256).
  { unfold V. change (Z.to_nat 0) with 0%nat.
    destruct (lookup_lt_is_Some_2 (registers s) 0 ltac:(lia)) as [v Hv].
    rewrite Hv. simpl. apply is_byte_spec. exact (Forall_lookup_1 _ _ _ _ Freg Hv). }
  rewrite (step_fetch rnd _ _ _ _ _ Hf). unfold execute; simpl.
  rewrite reg_V by lia. simpl.
  eexists; (split; [reflexivity|]).
  pose proof (finish_fields (with_pc s (wrap16 (V s 0 + assemble_addr a1 a2 a3))))
    as (Q1 & Q2 & Q3 & _ & Q5 & Q6 & Q7 & Q8 & _).
  rewrite Q1, Q2, Q3, Q5, Q6, Q7, Q8. simpl.
  rewrite assemble_addr_nibbles by lia. wrap_small. repeat split.
Qed.

(** A state with [pc] and the timers replaced. *)
Lemma timers_eta s : with_sound (with_delay s (delay s)) (sound s) = s.
Proof. destruct s; reflexivity. Qed.

(** A [1nnn] jumping to itself is a fixed point of [step]: along any run
    of [n] steps nothing changes but the two timers, which count down to
    0 and stay there. *)
Theorem jump_self_loop s a1 a2 a3 rnds :
  wf s = true -> fetch s = Ok (1, a1, a2, a3) ->
  256 * a1 + 16 * a2 + a3 = program_counter s ->
  run rnds s = Ok (with_sound (with_delay s (Z.max 0 (delay s - Z.of_nat (length rnds))))
                              (Z.max 0 (sound s - Z.of_nat (length rnds)))).
Proof.
  intros Hwf Hf Hnnn. wf_facts Hwf.
  pose proof (fetch_Ok _ _ _ _ _ Hf) as (_ & _ & _ & H1 & H2 & H3).
  assert (Hstep : forall r d so, 0 <= d -> 0 <= so ->
            step r (with_sound (with_delay s d) so) =
            Ok (with_sound (with_delay s (Z.max 0 (d - 1))) (Z.max 0 (so - 1)))).
  { intros r d so Hd Hso.
    assert (Hf' : fetch (with_sound (with_delay s d) so) = Ok (1, a1, a2, a3))
      by (rewrite <- Hf; reflexivity).
    rewrite (step_fetch r _ _ _ _ _ Hf'). unfold execute; simpl.
    unfold finish, set_addr. rewrite assemble_addr_nibbles by lia.
    simpl. rewrite Hnnn, wrap16_addr_roundtrip by lia.
    destruct s; simpl in *.
    destruct (Z.ltb_spec 0 d); simpl; destruct (Z.ltb_spec 0 so); simpl;
      unfold with_sound, with_delay, with_pc; simpl; repeat f_equal; lia. }
  rewrite <- (timers_eta s) at 1.
  assert (Hd0 : 0 <= delay s) by lia. assert (Hs0 : 0 <= sound s) by lia.
  revert Hd0 Hs0. generalize (delay s) (sound s).
  induction rnds as [|r rs IH]; intros d so Hd Hso; simpl.
  - f_equal. f_equal; [f_equal|]; lia.
  - rewrite Hstep by lia. simpl. rewrite IH by lia. f_equal. f_equal; [f_equal|]; lia.
Qed.

(** [00E0] clears all 256 display bytes and changes nothing else but the
    program counter and the timers. *)
Theorem cls_00E0 rnd s :
  wf s = true -> fetch s = Ok (0, 0, 0xE, 0) ->
  exists s', step rnd s = Ok s' /\ display s' = repeat 0 256 /\ alu_frame (with_display s (repeat 0 256)) s' /\
    registers s' = registers s.
Proof.
  intros Hwf Hf. wf_facts Hwf.
  rewrite (step_fetch rnd _ _ _ _ _ Hf). unfold execute; simpl.
  eexists; (split; [reflexivity|]).
  assert (Hz : map (fun _ : Z => 0) (display s) = repeat 0 256).
  { rewrite <- Hdsp. clear. induction (display s); simpl; congruence. }
  rewrite Hz. split; [|split].
  - pose proof (finish_fields (with_display s (repeat 0 256))) as (_ & _ & _ & _ & _ & _ & -> & _).
    reflexivity.
  - apply alu_frame_finish; reflexivity.
  - pose proof (finish_fields (with_display s (repeat 0 256))) as (_ & -> & _).
    reflexivity.
Qed.

(** ** Stack bounds *)

(** [2nnn] pushes at [sp + 1] on [u8]: from a stack pointer of 15 up to
    254 the push is out of the 16 slots and the step fails; from 255 the
    pointer wraps to slot 0, which then holds the return address. *)
Theorem call_stack_bound rnd s a1 a2 a3 :
  wf s = true -> fetch s = Ok (2, a1, a2, a3) ->
  (15 <= stack_pointer s < 255 -> step rnd s = Err IndexOutOfBounds) /\
  (stack_pointer s = 255 ->
   exists s', step rnd s = Ok s' /\ stack_pointer s' = 0 /\
     stack s' !! 0%nat = Some (program_counter s) /\
     program_counter s' = 256 * a1 + 16 * a2 + a3).
Proof.
  intros Hwf Hf. wf_facts Hwf. pose proof (fetch_Ok _ _ _ _ _ Hf) as (_ & _ & _ & H1 & H2 & H3).
  rewrite (step_fetch rnd _ _ _ _ _ Hf). unfold execute; simpl. split.
  - intros Hsp15. unfold set. wrap_small.
    destruct (Nat.ltb_spec (Z.to_nat (stack_pointer s + 1)) (length (stack s))); [lia|].
    reflexivity.
  - intros Hsp255. rewrite Hsp255. change (wrap8 (255 + 1)) with 0.
    rewrite set_Ok by (simpl; lia). simpl.
    set (t := set_addr _ a1 a2 a3).
    exists (finish t). split; [reflexivity|].
    pose proof (finish_fields t) as (_ & _ & _ & _ & Q5 & Q6 & _ & Q8 & _).
    rewrite Q5, Q6, Q8. subst t. unfold set_addr; simpl.
    rewrite assemble_addr_nibbles, wrap16_addr_roundtrip by lia.
    split; [reflexivity|]. split; [|reflexivity].
    apply list_lookup_insert_eq. lia.
Qed.

(** [00EE] reads [stack[sp]]: it fails exactly when the stack pointer is
    past the 16 slots, as it is after a return from an empty stack. *)
Theorem ret_stack_bound rnd s :
  wf s = true -> fetch s = Ok (0, 0, 0xE, 0xE) ->
  (16 <= stack_pointer s -> step rnd s = Err IndexOutOfBounds) /\
  (stack_pointer s < 16 ->
   exists s', step rnd s = Ok s' /\ stack_pointer s' = (stack_pointer s - 1) mod 256 /\
     program_counter s' = (default 0 (stack s !! Z.to_nat (stack_pointer s)) + 2) mod 65536).
Proof.
  intros Hwf Hf. pose proof Hwf as Hwf'. wf_facts Hwf'. split.
  - intros Hsp16. rewrite (step_fetch rnd _ _ _ _ _ Hf). unfold execute; simpl.
    unfold get. rewrite lookup_ge_None_2 by lia. reflexivity.
  - intros Hsp16.
    destruct (lookup_lt_is_Some_2 (stack s) (Z.to_nat (stack_pointer s)) ltac:(lia)) as [v Hv].
    destruct (ret_step rnd s v Hwf Hf Hv) as (s' & E & _ & Hsp' & Hpc' & _).
    exists s'. split; [exact E|]. split; [exact Hsp'|].
    rewrite Hpc', Hv. reflexivity.
Qed.

(** ** [Fx33] *)

Lemma bcd_digits v : 100 * (v / 100) + 10 * ((v mod 100) / 10) + v mod 10 = v.
Proof.
  pose proof (Z.div_mod v 100). pose proof (Z.div_mod (v mod 100) 10).
  pose proof (Z.mod_pos_bound v 100). pose proof (Z.mod_pos_bound (v mod 100) 10).
  pose proof (Z.div_mod v 10). pose proof (Z.mod_pos_bound v 10). lia.
Qed.

(** [Fx33] writes the three decimal digits of [Vx] at [I], [I + 1],
    [I + 2] and no other byte of memory; the step fails when [I + 2] is
    past the memory. *)
Theorem bcd_Fx33 rnd s x :
  wf s = true -> fetch s = Ok (0xF, x, 3, 3) ->
  (i s + 2 < 4096 ->
   exists s' h t o, step rnd s = Ok s' /\
     memory s' !! Z.to_nat (i s) = Some h /\
     memory s' !! Z.to_nat (i s + 1) = Some t /\
     memory s' !! Z.to_nat (i s + 2) = Some o /\
     100 * h + 10 * t + o = V s x /\ 0 <= h <= 2 /\ 0 <= t <= 9 /\ 0 <= o <= 9 /\
     (forall a, (a < Z.to_nat (i s) \/ Z.to_nat (i s + 2) < a)%nat ->
        memory s' !! a = memory s !! a) /\
     registers s' = registers s /\ i s' = i s /\
     program_counter s' = program_counter s + 2) /\
  (4096 <= i s + 2 -> step rnd s = Err IndexOutOfBounds).
Proof.
  intros Hwf Hf. wf_facts Hwf. pose proof (fetch_Ok _ _ _ _ _ Hf) as (Hpc0 & _ & _ & Hx & _ & _).
  assert (Hv : 0 <= V s x < 256).
  { unfold V. destruct (lookup_lt_is_Some_2 (registers s) (Z.to_nat x) ltac:(lia)) as [v Hv].
    rewrite Hv. simpl. apply is_byte_spec. exact (Forall_lookup_1 _ _ _ _ Freg Hv). }
  rewrite (step_fetch rnd _ _ _ _ _ Hf). unfold execute; simpl.
  rewrite reg_V by lia. simpl. split.
  - intros HI. unfold set_mem.
    rewrite set_Ok by lia. simpl. rewrite set_Ok by (rewrite length_insert; lia). simpl.
    rewrite set_Ok by (rewrite !length_insert; lia). simpl.
    set (m := <[_ := V s x mod 10]> _).
    set (t := with_memory _ m).
    pose proof (finish_fields t) as (Q1 & Q2 & Q3 & _ & _ & _ & _ & Q8 & _).
    exists (finish t), (V s x / 100), (V s x mod 100 / 10), (V s x mod 10).
    rewrite Q1, Q2, Q3, Q8. subst t m; simpl. wrap_small.
    split; [reflexivity|].
    split; [rewrite list_lookup_insert_ne by lia; rewrite list_lookup_insert_ne by lia;
            apply list_lookup_insert_eq; lia|].
    split; [rewrite list_lookup_insert_ne by lia; apply list_lookup_insert_eq;
            rewrite length_insert; lia|].
    split; [apply list_lookup_insert_eq; rewrite !length_insert; lia|].
    split; [apply bcd_digits|].
    split; [split; [apply Z.div_pos; lia|];
            assert (V s x / 100 < 3) by (apply Z.div_lt_upper_bound; lia); lia|].
    split; [pose proof (Z.mod_pos_bound (V s x) 100);
            split; [apply Z.div_pos; lia|];
            assert (V s x mod 100 / 10 < 10) by (apply Z.div_lt_upper_bound; lia); lia|].
    split; [pose proof (Z.mod_pos_bound (V s x) 10); lia|].
    split; [|repeat split].
    intros a Ha. rewrite !list_lookup_insert_ne by lia. reflexivity.
  - intros HI. unfold set_mem, set. simpl.
    destruct (Nat.ltb_spec (Z.to_nat (i s)) (length (memory s))); simpl; [|reflexivity].
    rewrite length_insert.
    destruct (Nat.ltb_spec (Z.to_nat (i s + 1)) (length (memory s))); simpl; [|reflexivity].
    rewrite !length_insert.
    destruct (Nat.ltb_spec (Z.to_nat (i s + 2)) (length (memory s))); simpl; [lia|reflexivity].
Qed.

(** ** Drawing *)

Lemma row_index_closed px py k : row_index px py k = sprite_row_byte px py k.
Proof.
  unfold row_index, sprite_row_byte, wrap8.
  assert (E : (py + Z.of_nat k) mod 256 * 8 mod 256 = 8 * ((py + Z.of_nat k) mod 32)).
  { rewrite Z.mul_mod_idemp_l by lia.
    change 256 with (32 * 8). rewrite Z.mul_mod_distr_r by lia. lia. }
  rewrite E. reflexivity.
Qed.

Lemma collision_land c v : 0 <= c < 256 -> 0 <= v < 256 ->
  Z.land c (Z.lxor (Z.lxor c v) 0xFF) = Z.land c v.
Proof.
  intros Hc Hv.
  assert (H : forallb (fun a => forallb (fun b =>
      Z.land (Z.of_nat a) (Z.lxor (Z.lxor (Z.of_nat a) (Z.of_nat b)) 0xFF) =? Z.land (Z.of_nat a) (Z.of_nat b))
      (seq 0 256)) (seq 0 256) = true) by (vm_compute; reflexivity).
  rewrite forallb_forall in H. specialize (H (Z.to_nat c) ltac:(apply in_seq; lia)).
  rewrite forallb_forall in H. specialize (H (Z.to_nat v) ltac:(apply in_seq; lia)).
  rewrite !Z2Nat.id in H by lia. apply Z.eqb_eq, H.
Qed.

(** [Dxyn] with the sprite inside memory: row [k < n] of the display
    becomes the old row XOR sprite byte [memory[I + k]], every other display
    byte is kept, [VF] is 1 exactly when some sprite byte shares a lit pixel
    with the row it lands on, and the other registers, memory and [I] stay. *)
Theorem draw_Dxyn rnd s x y n : wf s = true -> fetch s = Ok (0xD, x, y, n) -> i s + n <= 4096 ->
  exists s', step rnd s = Ok s' /\
    (forall k, (k < Z.to_nat n)%nat ->
       display s' !! Z.to_nat (sprite_row_byte (V s x) (V s y) k) =
       Some (Z.lxor (byte_at (display s) (Z.to_nat (sprite_row_byte (V s x) (V s y) k)))
                    (byte_at (memory s) (Z.to_nat (i s) + k)))) /\
    (forall a, (forall k, (k < Z.to_nat n)%nat -> a <> Z.to_nat (sprite_row_byte (V s x) (V s y) k)) ->
       display s' !! a = display s !! a) /\
    V s' 15 = (if existsb (fun k => negb (Z.land (byte_at (display s) (Z.to_nat (sprite_row_byte (V s x) (V s y) k)))
                                              (byte_at (memory s) (Z.to_nat (i s) + k)) =? 0))
                          (seq 0 (Z.to_nat n)) then 1 else 0) /\
    (forall k, 0 <= k -> k <> 15 -> V s' k = V s k) /\
    memory s' = memory s /\ i s' = i s /\ program_counter s' = program_counter s + 2.
Proof.
  intros Hwf Hf Hn. wf_facts Hwf.
  pose proof (fetch_Ok _ _ _ _ _ Hf) as (_ & _ & _ & _ & _ & Hn4).
  destruct (draw_step rnd s x y n) as (d' & E & L & S & K); [lia | lia | lia | lia | exact Hf |].
  set (t := with_registers (with_display s d') _) in E.
  exists (finish t). pose proof (finish_fields t) as (M & R & I & _ & _ & _ & D & P & _).
  split; [exact E|].
  rewrite D. split; [|split; [|split; [|split; [|split; [|split]]]]].
  - intros k Hk. rewrite <- !row_index_closed. apply S, Hk.
  - intros a Ha. apply K. intros j Hj. rewrite row_index_closed. apply Ha, Hj.
  - rewrite V_finish. subst t. change 15%nat with (Z.to_nat 15).
    rewrite V_with_insert by (rewrite ?Hreg; lia). simpl.
    match goal with |- (if existsb ?f ?l then _ else _) = (if existsb ?g _ then _ else _) =>
      replace (existsb f l) with (existsb g l); [reflexivity|] end.
    apply existsb_ext_In. intros j _. unfold row_clears. rewrite row_index_closed.
    rewrite collision_land; [reflexivity | apply byte_at_byte; assumption | apply byte_at_byte; assumption].
  - intros k Hk0 Hk. rewrite V_finish. subst t. change 15%nat with (Z.to_nat 15).
    rewrite V_with_insert by (rewrite ?Hreg; lia).
    destruct (Z.eqb_spec k 15); [lia|]. reflexivity.
  - rewrite M. reflexivity.
  - rewrite I. reflexivity.
  - rewrite P. pose proof (fetch_Ok _ _ _ _ _ Hf) as (Hpc0 & _). subst t. simpl. wrap_small. reflexivity.
Qed.

(** ** Well-formedness is an invariant of [step] *)



Lemma wf_i s : wf s = true -> 0 <= i s < 65536.
Proof. intros Hwf. wf_facts Hwf. exact Hi. Qed.












Lemma Forall_repeat_word n : Forall (fun z => is_word z = true) (repeat 0 n).
Proof. induction n; constructor; auto. Qed.

Lemma Forall_repeat_byte n : Forall (fun z => is_byte z = true) (repeat 0 n).
Proof. induction n; constructor; auto. Qed.

(** [Chip8::new] accepts any ROM of at most 3584 bytes, the empty one too,
    and gives a well-formed state when the ROM holds bytes; a longer ROM
    does not fit after 0x200 and makes it fail. *)
Theorem new_result rom :
  ((length rom <= 3584)%nat -> Forall (fun b => 0 <= b < 256) rom ->
   exists s, new rom = Ok s /\ wf s = true /\ program_counter s = 0x200) /\
  ((3584 < length rom)%nat -> new rom = Err IndexOutOfBounds).
Proof.
  split.
  - intros Hlen Hb. unfold new.
    set (mem1 := take 512 (repeat 0 4096) ++ rom ++ drop (512 + length rom) (repeat 0 4096)).
    assert (L1 : length mem1 = 4096%nat).
    { subst mem1. rewrite !length_app, length_take, length_drop, repeat_length. lia. }
    assert (C1 : copy_from_slice (repeat 0 MEMORY_SIZE) (Z.to_nat PROGRAM_START) rom = Ok mem1).
    { unfold copy_from_slice. rewrite repeat_length.
      change (Z.to_nat PROGRAM_START) with 512%nat. change MEMORY_SIZE with 4096%nat.
      destruct (Nat.leb_spec (512 + length rom) 4096); [reflexivity | lia]. }
    assert (C2 : copy_from_slice mem1 0 CHARACTERS = Ok (CHARACTERS ++ drop 80 mem1)).
    { unfold copy_from_slice. rewrite L1. reflexivity. }
    rewrite C1. cbn [bind]. rewrite C2. cbn [bind].
    eexists. split; [reflexivity|]. split; [|reflexivity].
    apply wf_intro; cbn [memory registers stack display i input delay sound
      program_counter stack_pointer]; try reflexivity; try lia.
    + rewrite length_app, length_drop, L1. reflexivity.
    + apply Forall_app. split; [repeat constructor|].
      apply Forall_drop. subst mem1. apply Forall_app. split; [apply Forall_take, Forall_repeat_byte|].
      apply Forall_app. split; [|apply Forall_drop, Forall_repeat_byte].
      eapply Forall_impl; [exact Hb|]. intros z Hz. apply is_byte_spec. exact Hz.
    + apply Forall_repeat_byte.
    + apply Forall_repeat_word.
    + apply Forall_repeat_byte.
    + unfold PROGRAM_START. lia.
  - intros Hlen. unfold new, copy_from_slice. rewrite repeat_length.
    change (Z.to_nat PROGRAM_START) with 512%nat. change MEMORY_SIZE with 4096%nat.
    destruct (Nat.leb_spec (512 + length rom) 4096); [lia | reflexivity].
Qed.

Lemma copy_from_slice_lookup (l data : list Z) st a :
  (st + length data <= length l)%nat ->
  (take st l ++ data ++ drop (st + length data) l) !! a =
  if decide (st <= a < st + length data)%nat then data !! (a - st)%nat else l !! a.
Proof.
  intros Hle. assert (Lt : length (take st l) = st) by (rewrite length_take; lia).
  case_decide as Ha.
  - rewrite lookup_app_r by lia. rewrite Lt. rewrite lookup_app_l by lia. reflexivity.
  - destruct (Nat.lt_ge_cases a st) as [Hlt | Hge].
    + rewrite lookup_app_l by lia. rewrite lookup_take. case_decide; [reflexivity | lia].
    + rewrite lookup_app_r by lia. rewrite Lt. rewrite lookup_app_r by lia.
      rewrite lookup_drop. f_equal. lia.
Qed.

(** [set_memory] writes [data] from [start] on and changes nothing else;
    it fails when the data runs past the 4096 bytes.  Two bytes written at
    the program counter are the instruction [step] decodes next. *)
Theorem set_memory_write s start data :
  wf s = true ->
  ((Z.to_nat start + length data <= 4096)%nat ->
   exists m, set_memory s start data = Ok (with_memory s m) /\ length m = 4096%nat /\
     forall a, m !! a =
       if decide (Z.to_nat start <= a < Z.to_nat start + length data)%nat
       then data !! (a - Z.to_nat start)%nat else memory s !! a) /\
  ((4096 < Z.to_nat start + length data)%nat -> set_memory s start data = Err IndexOutOfBounds) /\
  (forall b1 b2 rest s', start = program_counter s -> data = b1 :: b2 :: rest ->
     set_memory s start data = Ok s' ->
     fetch s' = Ok (Z.shiftr (Z.land b1 0xF0) 4, Z.land b1 0x0F,
                    Z.shiftr (Z.land b2 0xF0) 4, Z.land b2 0x0F)).
Proof.
  intros Hwf. wf_facts Hwf. unfold set_memory, copy_from_slice. rewrite Hmem.
  assert (Hwrite : (Z.to_nat start + length data <= 4096)%nat ->
    forall a, (take (Z.to_nat start) (memory s) ++ data ++
               drop (Z.to_nat start + length data) (memory s)) !! a =
       if decide (Z.to_nat start <= a < Z.to_nat start + length data)%nat
       then data !! (a - Z.to_nat start)%nat else memory s !! a)
    by (intros Hle a; apply copy_from_slice_lookup; lia).
  split; [|split].
  - intros Hle. destruct (Nat.leb_spec (Z.to_nat start + length data) 4096); [|lia].
    eexists. split; [reflexivity|]. split; [|exact (Hwrite Hle)].
    rewrite !length_app, length_take, length_drop. lia.
  - intros Hgt. destruct (Nat.leb_spec (Z.to_nat start + length data) 4096); [lia|].
    reflexivity.
  - intros b1 b2 rest s' -> -> H.
    destruct (Nat.leb_spec (Z.to_nat (program_counter s) + length (b1 :: b2 :: rest)) 4096)
      as [Hle|]; [|discriminate]. injection H as <-.
    assert (Hpc1 : Z.to_nat (wrap16 (program_counter s + 1)) = S (Z.to_nat (program_counter s)))
      by (simpl in Hle; wrap_small; lia).
    apply fetch_bytes; simpl; rewrite ?Hpc1, Hwrite by exact Hle.
    + case_decide; [|simpl in *; lia]. rewrite Nat.sub_diag. reflexivity.
    + case_decide; [|simpl in *; lia]. replace (S _ - _)%nat with 1%nat by lia. reflexivity.
Qed.

Import Frontend.


Lemma format_08b_bits r : 0 <= r < 256 -> format_08b r = map (bit_char r) (seq 0 8).
Proof.
  intros Hr.
  assert (H : forallb (fun n => if List.list_eq_dec Ascii.ascii_dec (format_08b (Z.of_nat n))
                                   (map (bit_char (Z.of_nat n)) (seq 0 8)) then true else false)
                      (seq 0 256) = true)
    by (vm_compute; reflexivity).
  rewrite forallb_forall in H. specialize (H (Z.to_nat r) ltac:(apply in_seq; lia)).
  rewrite Z2Nat.id in H by lia.
  destruct (List.list_eq_dec _ _ _) as [E|]; [exact E | discriminate].
Qed.

Import Ascii.

Lemma concat_blocks (f : Z -> list ascii) (l : list Z) q r :
  (forall b, In b l -> length (f b) = 8%nat) -> (r < 8)%nat ->
  List.concat (List.map f l) !! (8 * q + r)%nat = (l !! q) ≫= (fun b => f b !! r).
Proof.
  revert q. induction l as [|b l IH]; intros q Hl Hr; simpl; [reflexivity|].
  destruct q as [|q].
  - rewrite lookup_app_l by (rewrite Hl by (left; reflexivity); lia). f_equal; lia.
  - rewrite lookup_app_r by (rewrite Hl by (left; reflexivity); lia).
    rewrite Hl by (left; reflexivity).
    match goal with |- _ !! ?n = _ => replace n with (8 * q + r)%nat by lia end.
    apply IH; [intros b' Hb'; apply Hl; right; exact Hb' | exact Hr].
Qed.

Lemma paint_chars_spec cs : forall k,
  Forall (fun c => c = "1"%char \/ c = "0"%char) cs ->
  exists pts, paint_chars k cs = Some pts /\
    forall p, In p pts <->
      exists j, cs !! j = Some "1"%char /\ p = ((k + j) mod 64, (k + j) / 64)%nat.
Proof.
  induction cs as [|c cs IH]; intros k Hcs.
  - exists []. split; [reflexivity|]. intros p. split; [intros []|].
    intros (j & Hj & _). rewrite lookup_nil in Hj. discriminate.
  - inversion Hcs as [|? ? Hc Hcs']; subst.
    destruct (IH (S k) Hcs') as (pts & E & Hin).
    cbn [paint_chars]. unfold WIDTH_PIX. destruct Hc as [-> | ->].
    + rewrite E. eexists; split; [reflexivity|]. intros p. cbn [In]. rewrite Hin. split.
      * intros [<- | (j & Hj & ->)].
        -- exists 0%nat. split; [reflexivity|]. rewrite Nat.add_0_r. reflexivity.
        -- exists (S j). split; [exact Hj|]. rewrite Nat.add_succ_r. reflexivity.
      * intros ([|j] & Hj & ->).
        -- left. rewrite Nat.add_0_r. reflexivity.
        -- right. exists j. split; [exact Hj|]. rewrite Nat.add_succ_r. reflexivity.
    + rewrite E. eexists; split; [reflexivity|]. intros p. rewrite Hin. split.
      * intros (j & Hj & ->). exists (S j). split; [exact Hj|].
        rewrite Nat.add_succ_r. reflexivity.
      * intros ([|j] & Hj & ->); [discriminate|].
        exists j. split; [exact Hj|]. rewrite Nat.add_succ_r. reflexivity.
Qed.

Lemma pixel_index x y : (x < 64)%nat ->
  ((64 * y + x) / 8 = 8 * y + x / 8 /\ (64 * y + x) mod 8 = x mod 8 /\
   (64 * y + x) mod 64 = x /\ (64 * y + x) / 64 = y)%nat.
Proof.
  intros Hx. pose proof (Nat.div_mod_eq x 8) as Ex. pose proof (Nat.mod_upper_bound x 8 ltac:(lia)).
  repeat split.
  - symmetry. apply (Nat.div_unique _ _ _ (x mod 8)); lia.
  - symmetry. apply (Nat.mod_unique _ _ (8 * y + x / 8)); lia.
  - symmetry. apply (Nat.mod_unique _ _ y); lia.
  - symmetry. apply (Nat.div_unique _ _ _ x); lia.
Qed.

Lemma bit_char_cases r j : bit_char r j = "1"%char \/ bit_char r j = "0"%char.
Proof. unfold bit_char. destruct (Z.testbit _ _); auto. Qed.

Lemma bit_char_one r j : bit_char r j = "1"%char <-> Z.testbit r (Z.of_nat (7 - j)) = true.
Proof. unfold bit_char. destruct (Z.testbit _ _); split; congruence. Qed.

(** [Shape::draw] of a well-formed state never panics, and it paints the
    pixel [(x, y)] exactly when [x < 64], [y < 32] and bit [7 - x mod 8] of
    display byte [8 y + x / 8] is set: byte [b] holds eight horizontal
    pixels, most significant bit leftmost. *)
Theorem draw_pixels s :
  wf s = true ->
  exists pts, draw s = Some pts /\
    forall x y, In (x, y) pts <->
      (x < 64 /\ y < 32)%nat /\
      Z.testbit (byte_at (display s) (8 * y + x / 8)) (Z.of_nat (7 - x mod 8)) = true.
Proof.
  intros Hwf. pose proof (wf_spec _ Hwf) as (_ & _ & _ & Hd & _ & _ & _ & Fd & _).
  set (cs := pixel_string (display s)).
  assert (Ecs : cs = List.concat (List.map (fun r => map (bit_char r) (seq 0 8)) (display s))).
  { subst cs. unfold pixel_string. f_equal. apply map_ext_in.
    intros r Hr. apply format_08b_bits. apply is_byte_spec.
    rewrite List.Forall_forall in Fd. exact (Fd r Hr). }
  assert (Hchars : Forall (fun c => c = "1"%char \/ c = "0"%char) cs).
  { rewrite Ecs. apply List.Forall_forall. intros c Hc.
    apply in_concat in Hc as (l & Hl & Hc). apply in_map_iff in Hl as (r & <- & _).
    apply in_map_iff in Hc as (j & <- & _). apply bit_char_cases. }
  assert (Hlook : forall j, cs !! j = Some "1"%char <->
            (j / 8 < 256)%nat /\
            Z.testbit (byte_at (display s) (j / 8)) (Z.of_nat (7 - j mod 8)) = true).
  { intros j. rewrite Ecs. rewrite (Nat.div_mod_eq j 8) at 1.
    pose proof (Nat.mod_upper_bound j 8 ltac:(lia)) as Hm.
    rewrite concat_blocks;
      [| intros b _; rewrite length_map, length_seq; reflexivity | exact Hm].
    unfold byte_at. destruct (display s !! (j / 8)%nat) as [b|] eqn:Eb; cbn [mbind option_bind default].
    - pose proof (lookup_lt_Some _ _ _ Eb) as Hlt.
      change (map (bit_char b) (seq 0 8)) with (bit_char b <$> seq 0 8).
      rewrite list_lookup_fmap, lookup_seq_lt by exact Hm.
      cbn [fmap option_fmap option_map]. rewrite Nat.add_0_l.
      split; [intros H; injection H as H|intros [_ H]].
      + split; [rewrite Hd in Hlt; exact Hlt|]. apply bit_char_one. exact H.
      + f_equal. apply bit_char_one. exact H.
    - apply lookup_ge_None_1 in Eb. split; [discriminate | lia]. }
  destruct (paint_chars_spec cs 0 Hchars) as (pts & E & Hin).
  exists pts. split; [exact E|]. intros x y. rewrite Hin. split.
  - intros (j & Hj & Ep). rewrite Nat.add_0_l in Ep.
    assert (Ex : x = (j mod 64)%nat) by exact (f_equal fst Ep).
    assert (Ey : y = (j / 64)%nat) by exact (f_equal snd Ep).
    apply Hlook in Hj as [Hj Hb]. subst x y.
    pose proof (Nat.div_mod_eq j 64) as Ej. pose proof (Nat.mod_upper_bound j 64 ltac:(lia)).
    set (y := (j / 64)%nat) in *. set (x := (j mod 64)%nat) in *.
    destruct (pixel_index x y ltac:(lia)) as (E1 & E2 & _).
    rewrite Ej, E1, E2 in Hb. rewrite Ej, E1 in Hj. split; [lia | exact Hb].
  - intros ((Hx & Hy) & Hb). exists (64 * y + x)%nat.
    destruct (pixel_index x y Hx) as (E1 & E2 & E3 & E4). split.
    + apply Hlook. rewrite E1, E2. split; [|exact Hb].
      assert (x / 8 < 8)%nat by (apply Nat.Div0.div_lt_upper_bound; lia). lia.
    + rewrite Nat.add_0_l, E3, E4. reflexivity.
Qed.


(** ** Witnesses of the extra properties at concrete states *)

Lemma alu_no_flag_witness :
  let s := state_after [0x81; 0x20] 0 in let x := 1 in let y := 2 in let op := 0 in
  exists s', step 0 s = Ok s' /\ alu_frame s s' /\
    forall k, 0 <= k -> V s' k = if k =? x then alu8 op (V s x) (V s y) else V s k.
Proof.
  intros s x y op.
  apply (proj1 (alu_no_flag 0 s x y op ltac:(vm_compute; reflexivity)));
    vm_compute; first [reflexivity | discriminate].
Defined.

Lemma add_carry_8xy4_witness :
  let s := state_after [0x81; 0x24] 0 in let x := 1 in let y := 2 in
  exists s', step 0 s = Ok s' /\ alu_frame s s' /\
    forall k, 0 <= k ->
      V s' k = if k =? 15 then (if 256 <=? V s x + V s y then 1 else 0)
               else if k =? x then (V s x + V s y) mod 256 else V s k.
Proof.
  intros s x y.
  apply (add_carry_8xy4 0 s x y); vm_compute; reflexivity.
Defined.

Lemma sub_borrow_8xy5_8xy7_witness :
  let s := state_after [0x81; 0x25] 0 in let x := 1 in let y := 2 in
  exists s', step 0 s = Ok s' /\ alu_frame s s' /\
    forall k, 0 <= k ->
      V s' k = if k =? 15 then (if V s x <? V s y then 0 else 1)
               else if k =? x then (V s x - V s y) mod 256 else V s k.
Proof.
  intros s x y.
  apply (proj1 (sub_borrow_8xy5_8xy7 0 s x y ltac:(vm_compute; reflexivity)));
    vm_compute; reflexivity.
Defined.

Lemma shift_8xy6_8xyE_witness :
  let s := state_after [0x81; 0x2E] 0 in let x := 1 in let y := 2 in
  exists s', step 0 s = Ok s' /\ alu_frame s s' /\
    forall k, 0 <= k ->
      V s' k = if k =? x then (2 * (if x =? 15 then Z.lor (V s x) 8 else V s x)) mod 256
               else if k =? 15 then Z.lor (V s x) 8 else V s k.
Proof.
  intros s x y.
  apply (proj2 (shift_8xy6_8xyE 0 s x y ltac:(vm_compute; reflexivity)));
    vm_compute; reflexivity.
Defined.

Lemma rand_mask_Cxnn_witness :
  let s := state_after [0xC1; 0x0F] 0 in let x := 1 in let a := 0 in let b := 15 in
  (forall rnd, 0 <= rnd < 256 ->
     exists s', step rnd s = Ok s' /\ alu_frame s s' /\
       Z.land (V s' x) (16 * a + b) = V s' x /\
       forall k, 0 <= k -> k <> x -> V s' k = V s k) /\
  (forall m, Z.land m (16 * a + b) = m ->
     exists rnd s', 0 <= rnd < 256 /\ step rnd s = Ok s' /\ V s' x = m).
Proof.
  intros s x a b.
  apply (rand_mask_Cxnn s x a b); vm_compute; reflexivity.
Defined.

Lemma key_skip_Ex9E_ExA1_witness :
  let s := state_after [0xE1; 0xA1] 0 in let x := 1 in
  exists s', step 0 s = Ok s' /\
    program_counter s' = program_counter s + (if input s =? V s x then 2 else 4) /\
    registers s' = registers s /\ memory s' = memory s /\ i s' = i s /\
    stack s' = stack s /\ stack_pointer s' = stack_pointer s /\ display s' = display s.
Proof.
  intros s x.
  apply (proj2 (key_skip_Ex9E_ExA1 0 s x ltac:(vm_compute; reflexivity)));
    vm_compute; reflexivity.
Defined.

Lemma load_timer_input_Fx07_Fx0A_witness :
  let s := state_after [0xF1; 0x07] 0 in let x := 1 in
  exists s', step 0 s = Ok s' /\ alu_frame s s' /\
    forall k, 0 <= k -> V s' k = if k =? x then delay s else V s k.
Proof.
  intros s x.
  apply (proj1 (load_timer_input_Fx07_Fx0A 0 s x ltac:(vm_compute; reflexivity)));
    vm_compute; reflexivity.
Defined.

Lemma index_Annn_Fx1E_witness :
  let s := state_after [0xA1; 0x23] 0 in
  exists s', step 0 s = Ok s' /\ i s' = 256 * 1 + 16 * 2 + 3 /\ i s' < 4096 /\
    registers s' = registers s /\ memory s' = memory s /\
    program_counter s' = program_counter s + 2.
Proof.
  intros s.
  apply (proj1 (index_Annn_Fx1E 0 s 1 2 3 ltac:(vm_compute; reflexivity)));
    vm_compute; reflexivity.
Defined.

Lemma jump_1nnn_witness :
  let s := state_after [0x13; 0x45] 0 in
  exists s', step 0 s = Ok s' /\ program_counter s' = 256 * 3 + 16 * 4 + 5 /\
    registers s' = registers s /\ memory s' = memory s /\ i s' = i s /\
    stack s' = stack s /\ stack_pointer s' = stack_pointer s /\ display s' = display s.
Proof.
  intros s.
  apply (jump_1nnn 0 s 3 4 5); vm_compute; reflexivity.
Defined.

Lemma jump_Bnnn_offset_witness :
  let s := state_after [0x60; 0x07; 0xB3; 0x45] 1 in
  exists s', step 0 s = Ok s' /\
    program_counter s' = V s 0 + (256 * 3 + 16 * 4 + 5) + 2 /\
    registers s' = registers s /\ memory s' = memory s /\ i s' = i s /\
    stack s' = stack s /\ stack_pointer s' = stack_pointer s /\ display s' = display s.
Proof.
  intros s.
  apply (jump_Bnnn_offset 0 s 3 4 5); vm_compute; reflexivity.
Defined.

Lemma jump_self_loop_witness :
  let s := state_after [0x12; 0x00] 0 in
  run [7; 8; 9] s = Ok (with_sound (with_delay s (Z.max 0 (delay s - 3))) (Z.max 0 (sound s - 3))).
Proof.
  intros s.
  apply (jump_self_loop s 2 0 0 [7; 8; 9]); vm_compute; reflexivity.
Defined.

Lemma cls_00E0_witness :
  let s := state_after [0x00; 0xE0] 0 in
  exists s', step 0 s = Ok s' /\ display s' = repeat 0 256 /\
    alu_frame (with_display s (repeat 0 256)) s' /\ registers s' = registers s.
Proof.
  intros s.
  apply (cls_00E0 0 s); vm_compute; reflexivity.
Defined.

Lemma call_stack_bound_witness :
  step 0 (with_sp (state_after [0x22; 0x00] 0) 15) = Err IndexOutOfBounds /\
  exists s', step 0 (with_sp (state_after [0x22; 0x00] 0) 255) = Ok s' /\
    stack_pointer s' = 0 /\
    stack s' !! 0%nat = Some (program_counter (with_sp (state_after [0x22; 0x00] 0) 255)) /\
    program_counter s' = 256 * 2 + 16 * 0 + 0.
Proof.
  split.
  - apply (proj1 (call_stack_bound 0 (with_sp (state_after [0x22; 0x00] 0) 15) 2 0 0
      ltac:(vm_compute; reflexivity) ltac:(vm_compute; reflexivity))); vm_compute; split; first [discriminate | reflexivity].
  - apply (proj2 (call_stack_bound 0 (with_sp (state_after [0x22; 0x00] 0) 255) 2 0 0
      ltac:(vm_compute; reflexivity) ltac:(vm_compute; reflexivity))); vm_compute; reflexivity.
Defined.

Lemma ret_stack_bound_witness :
  step 0 (with_sp (state_after [0x00; 0xEE] 0) 16) = Err IndexOutOfBounds /\
  exists s', step 0 (with_sp (state_after [0x00; 0xEE] 0) 3) = Ok s' /\
    stack_pointer s' = (3 - 1) mod 256 /\
    program_counter s' =
      (default 0 (stack (with_sp (state_after [0x00; 0xEE] 0) 3) !! Z.to_nat 3) + 2) mod 65536.
Proof.
  split.
  - apply (proj1 (ret_stack_bound 0 (with_sp (state_after [0x00; 0xEE] 0) 16)
      ltac:(vm_compute; reflexivity) ltac:(vm_compute; reflexivity))); vm_compute; discriminate.
  - apply (proj2 (ret_stack_bound 0 (with_sp (state_after [0x00; 0xEE] 0) 3)
      ltac:(vm_compute; reflexivity) ltac:(vm_compute; reflexivity))); vm_compute; reflexivity.
Defined.

Lemma bcd_Fx33_witness :
  let s := state_after [0x61; 0xEA; 0xA3; 0x00; 0xF1; 0x33] 2 in
  exists s' h t o, step 0 s = Ok s' /\
    memory s' !! Z.to_nat (i s) = Some h /\
    memory s' !! Z.to_nat (i s + 1) = Some t /\
    memory s' !! Z.to_nat (i s + 2) = Some o /\
    100 * h + 10 * t + o = V s 1 /\ 0 <= h <= 2 /\ 0 <= t <= 9 /\ 0 <= o <= 9 /\
    (forall a, (a < Z.to_nat (i s) \/ Z.to_nat (i s + 2) < a)%nat ->
       memory s' !! a = memory s !! a) /\
    registers s' = registers s /\ i s' = i s /\
    program_counter s' = program_counter s + 2.
Proof.
  intros s.
  apply (proj1 (bcd_Fx33 0 s 1 ltac:(vm_compute; reflexivity) ltac:(vm_compute; reflexivity)));
    vm_compute; reflexivity.
Defined.

Lemma draw_Dxyn_witness :
  let s := state_after [0x61; 0x0A; 0xA0; 0x50; 0xD1; 0x15] 2 in
  exists s', step 0 s = Ok s' /\
    (forall k, (k < Z.to_nat 5)%nat ->
       display s' !! Z.to_nat (sprite_row_byte (V s 1) (V s 1) k) =
       Some (Z.lxor (byte_at (display s) (Z.to_nat (sprite_row_byte (V s 1) (V s 1) k)))
                    (byte_at (memory s) (Z.to_nat (i s) + k)))) /\
    (forall a, (forall k, (k < Z.to_nat 5)%nat -> a <> Z.to_nat (sprite_row_byte (V s 1) (V s 1) k)) ->
       display s' !! a = display s !! a) /\
    V s' 15 = (if existsb (fun k => negb (Z.land (byte_at (display s) (Z.to_nat (sprite_row_byte (V s 1) (V s 1) k)))
                                              (byte_at (memory s) (Z.to_nat (i s) + k)) =? 0))
                          (seq 0 (Z.to_nat 5)) then 1 else 0) /\
    (forall k, 0 <= k -> k <> 15 -> V s' k = V s k) /\
    memory s' = memory s /\ i s' = i s /\ program_counter s' = program_counter s + 2.
Proof.
  intros s.
  apply (draw_Dxyn 0 s 1 1 5); vm_compute; first [reflexivity | discriminate].
Defined.


Lemma new_result_witness :
  (exists s, new [0x12; 0x00] = Ok s /\ wf s = true /\ program_counter s = 0x200) /\
  new (repeat 0 3585) = Err IndexOutOfBounds.
Proof.
  split.
  - apply (proj1 (new_result [0x12; 0x00])); [simpl; lia | repeat constructor; lia].
  - apply (proj2 (new_result (repeat 0 3585))). rewrite repeat_length. lia.
Defined.

Lemma set_memory_write_witness :
  let s := state_after [0x00; 0xE0] 0 in
  exists m, set_memory s 0x300 [1; 2] = Ok (with_memory s m) /\ length m = 4096%nat /\
    forall a, m !! a =
      if decide (Z.to_nat 0x300 <= a < Z.to_nat 0x300 + length [1; 2])%nat
      then [1; 2] !! (a - Z.to_nat 0x300)%nat else memory s !! a.
Proof.
  intros s.
  apply (proj1 (set_memory_write s 0x300 [1; 2] ltac:(vm_compute; reflexivity)));
    simpl; lia.
Defined.

Lemma draw_pixels_witness :
  let s := state_after [0x00; 0xE0] 1 in
  exists pts, draw s = Some pts /\
    forall x y, In (x, y) pts <->
      (x < 64 /\ y < 32)%nat /\
      Z.testbit (byte_at (display s) (8 * y + x / 8)) (Z.of_nat (7 - x mod 8)) = true.
Proof.
  intros s.
  apply (draw_pixels s); vm_compute; reflexivity.
Defined.

